(** * Line-shape synthesis of the HITRAN CRDS simulator

    A shallow embedding of [spectrum_calc/absorption.py]
    (class [SpectrumCalculator]) and the properties of its four methods.

    Modelling conventions.
    - Numbers are real numbers ([R]): the development speaks about the
      arithmetic the code denotes, not about binary64 rounding, overflow,
      underflow or the non-finite values [nan] and [inf].  Where numpy would produce
      such a value (a zero divisor, the square root of a negative number)
      the model leaves its faithful domain, and the theorems carry the
      hypotheses that keep them inside it.
    - [temperature], [pressure], [concentration], [path_length],
      [molecular_mass] and [ref_temp] are taken as Python floats, as in the
      signature defaults and the pages that read them from widgets; a
      Python float division by zero raises [ZeroDivisionError].  A caller
      that passes numpy scalars (the atmosphere page does) gets [inf] or
      [nan] from a zero divisor instead; the theorems take temperature > 0
      and a non-zero mass, where the two readings agree.  Line fields and
      the frequency grid are numpy values, whose division never raises.
    - numpy arrays are lists; a dict is a finite map.
    - Of the default arguments only [ref_temp=296.0] matters to the
      properties and is modelled (an optional argument); the other
      arguments are passed explicitly.
    - The progress messages written with [print] are not modelled. *)

From Stdlib Require Import Reals Lra.
From stdpp Require Import gmap strings list.

Open Scope R_scope.

(** ** Outcomes of a call: a value, or a Python exception *)

Inductive exn : Type :=
  | ZeroDivisionError.

Inductive outcome (A : Type) : Type :=
  | Returned (a : A)
  | Raised (e : exn).

Arguments Returned {A} a.
Arguments Raised {A} e.

#[global] Instance outcome_ret : MRet outcome := fun _ a => Returned a.

#[global] Instance outcome_bind : MBind outcome := fun _ _ k m =>
  match m with
  | Returned a => k a
  | Raised e => Raised e
  end.

#[global] Instance outcome_fmap : FMap outcome := fun _ _ f m =>
  match m with
  | Returned a => Returned (f a)
  | Raised e => Raised e
  end.

#[global] Instance R_eq_dec : EqDecision R := Req_dec_T.

(** ** Scalar operations *)

(** [a / b] on Python floats; on numpy scalars a zero divisor gives [inf]
    or [nan] and no exception, a case the theorems exclude. *)
Definition pydiv (a b : R) : outcome R :=
  if decide (b = 0) then Raised ZeroDivisionError else Returned (a / b).

(** [x ** y] on Python floats, for a base [0 <= x] and an exponent [0 < y]
    (the only use is [** 0.5]).  For a negative base and a fractional
    exponent Python answers with a complex number; that case is outside
    the model. *)
Definition pypow (x y : R) : R :=
  if decide (x = 0) then 0 else Rpower x y.

(** [np.log10]. *)
Definition log10 (x : R) : R := ln x / ln 10.

(** ** Complex numbers, as far as [z = x + 1j * y] needs them *)

Record complex : Type := Complex { real : R; imag : R }.

Definition of_float (x : R) : complex := Complex x 0.

Definition Cadd (a b : complex) : complex :=
  Complex (real a + real b) (imag a + imag b).

Definition Cmul (a b : complex) : complex :=
  Complex (real a * real b - imag a * imag b)
          (real a * imag b + imag a * real b).

(** The literal [1j]. *)
Definition imaginary_unit : complex := Complex 0 1.

(** ** Arrays *)

(** [np.zeros_like(a)]. *)
Definition zeros_like (a : list R) : list R := replicate (length a) 0.

(** [a += b] on arrays of one shape. *)
Definition array_add (a b : list R) : list R := zip_with Rplus a b.

(** ** Records *)

(** A row of the HITRAN table, read through the keys ['nu'], ['sw'] and
    ['gamma_air']. *)
Record line : Type := Line { nu : R; sw : R; gamma_air : R }.

(** The dict returned by [calculate_absorption_spectrum]. *)
Record spectrum : Type := Spectrum {
  frequency : list R;
  absorption_coeff : list R;
  transmittance : list R;
  absorbance : list R
}.

(** ** Physical constants ([__init__]) *)

Definition c : R := 2.99792458e8.
Definition k_B : R := 1.380649e-23.
Definition N_A : R := 6.02214076e23.

(** ** The molar-mass table of [calculate_absorption_spectrum] *)

Definition molecular_masses_items : list (string * R) :=
  [ ("H2O", 18.015); ("CO2", 44.01); ("CH4", 16.04); ("NH3", 17.03);
    ("N2O", 44.01); ("CO", 28.01); ("O3", 47.998); ("SO2", 64.066);
    ("NO2", 46.006); ("HNO3", 63.01); ("O2", 31.998); ("NO", 30.006);
    ("OH", 17.007); ("HF", 20.006); ("HCl", 36.458); ("HBr", 80.912);
    ("HI", 127.912); ("ClO", 51.452); ("OCS", 60.076); ("H2CO", 30.026);
    ("HOCl", 52.460); ("N2", 28.014); ("HCN", 27.026); ("CH3Cl", 50.487);
    ("H2O2", 34.015); ("C2H2", 26.037); ("C2H6", 30.069); ("PH3", 33.998) ].

Definition molecular_masses : gmap string R :=
  list_to_map molecular_masses_items.

(** [molecular_masses.get(molecule, 18.015)]. *)
Definition molecular_mass_of (molecule : string) : R :=
  default 18.015 (molecular_masses !! molecule).

(** ** The methods of [SpectrumCalculator] *)

Definition calculate_doppler_width
    (center_freq temperature molecular_mass : R) : outcome R :=
  q ← pydiv (2 * k_B * temperature * N_A) (molecular_mass * 1e-3);
  mret ((center_freq / c) * sqrt q).

Definition calculate_lorentz_width
    (pressure_broadening pressure temperature : R) (ref_temp : option R)
    : outcome R :=
  let ref_temp := default 296.0 ref_temp in
  ratio ← pydiv ref_temp temperature;
  mret (pressure_broadening * pressure * pypow ratio 0.5).

Section Faddeeva.

(** [scipy.special.wofz], the Faddeeva function, is a library routine: the
    development is parametric in it. *)
Variable wofz : complex -> complex.

Definition voigt_profile
    (frequency : list R) (center_freq gamma_lorentz gamma_doppler : R)
    : list R :=
  let x := (fun f => (f - center_freq) / gamma_doppler) <$> frequency in
  let y := gamma_lorentz / gamma_doppler in
  let z := (fun xk => Cadd (of_float xk) (Cmul imaginary_unit (of_float y))) <$> x in
  let w := wofz <$> z in
  (fun wk => real wk / (gamma_doppler * sqrt PI)) <$> w.

(** One round of the loop over [hitran_data]. *)
Definition add_line
    (frequency_grid : list R) (temperature pressure concentration molecular_mass : R)
    (absorption_coeff : list R) (ln : line) : outcome (list R) :=
  let center_freq := nu ln in
  let intensity := sw ln in
  let gamma_air := gamma_air ln in
  gamma_d ← calculate_doppler_width center_freq temperature molecular_mass;
  gamma_l ← calculate_lorentz_width gamma_air pressure temperature None;
  let line_shape := voigt_profile frequency_grid center_freq gamma_l gamma_d in
  mret (array_add absorption_coeff
          ((fun s => s * 1e20) <$>
             ((fun s => intensity * concentration * s) <$> line_shape))).

(** The loop [for i, line in enumerate(hitran_data)]. *)
Fixpoint for_each_line
    (frequency_grid : list R) (temperature pressure concentration molecular_mass : R)
    (absorption_coeff : list R) (hitran_data : list line) : outcome (list R) :=
  match hitran_data with
  | [] => mret absorption_coeff
  | ln :: rest =>
      absorption_coeff ← add_line frequency_grid temperature pressure
                            concentration molecular_mass absorption_coeff ln;
      for_each_line frequency_grid temperature pressure concentration
        molecular_mass absorption_coeff rest
  end.

Definition calculate_absorption_spectrum
    (hitran_data : list line) (frequency_grid : list R)
    (temperature pressure concentration path_length : R) (molecule : string)
    : outcome spectrum :=
  let absorption_coeff := zeros_like frequency_grid in
  let molecular_mass := molecular_mass_of molecule in
  absorption_coeff ← for_each_line frequency_grid temperature pressure
                        concentration molecular_mass absorption_coeff hitran_data;
  let transmittance := (fun a => exp (- a * path_length)) <$> absorption_coeff in
  let absorbance := (fun t => - log10 t) <$> transmittance in
  mret (Spectrum frequency_grid absorption_coeff transmittance absorbance).

End Faddeeva.

(** ** The operations as the specification words them

    These follow the text of the specification, section 4, and are
    compared with the methods above. *)

Definition spec_doppler_width (center_frequency temperature molecular_mass : R) : R :=
  (center_frequency / c) * sqrt (2 * k_B * temperature * N_A / (molecular_mass * 1e-3)).

Definition spec_lorentz_width
    (air_broadening_coefficient pressure temperature reference_temperature : R) : R :=
  air_broadening_coefficient * pressure * sqrt (reference_temperature / temperature).

Definition default_reference_temperature : R := 296.0.

Section FaddeevaSpec.

Variable wofz : complex -> complex.

Definition spec_voigt_point (center_frequency lorentz_width doppler_width f : R) : R :=
  let x := (f - center_frequency) / doppler_width in
  let y := lorentz_width / doppler_width in
  real (wofz (Complex x y)) / (doppler_width * sqrt PI).

Definition spec_voigt_profile
    (frequency_grid : list R) (center_frequency lorentz_width doppler_width : R)
    : list R :=
  spec_voigt_point center_frequency lorentz_width doppler_width <$> frequency_grid.

(** Step 2 of the algorithm, for one line. *)
Definition spec_accumulate
    (frequency_grid : list R) (temperature pressure concentration species_molar_mass : R)
    (absorption_coefficient : list R) (ln : line) : list R :=
  let gamma_d := spec_doppler_width (nu ln) temperature species_molar_mass in
  let gamma_l := spec_lorentz_width (gamma_air ln) pressure temperature
                   default_reference_temperature in
  let profile := spec_voigt_profile frequency_grid (nu ln) gamma_l gamma_d in
  zip_with Rplus absorption_coefficient
    ((fun p => sw ln * concentration * p * 1e20) <$> profile).

Definition spec_absorption_spectrum
    (lines : list line) (frequency_grid : list R)
    (temperature pressure concentration path_length species_molar_mass : R)
    : spectrum :=
  let absorption_coefficient :=
    foldl (spec_accumulate frequency_grid temperature pressure concentration
             species_molar_mass)
          (replicate (length frequency_grid) 0) lines in
  let transmittance := (fun a => exp (- (a * path_length))) <$> absorption_coefficient in
  let absorbance := (fun t => - log10 t) <$> transmittance in
  Spectrum frequency_grid absorption_coefficient transmittance absorbance.

End FaddeevaSpec.

(** A sample kernel with which the parametric statements are instantiated:
    the Gaussian [exp (- x^2)], the value of the Faddeeva function's real
    part on the real axis. *)
Definition gaussian_kernel (z : complex) : complex :=
  Complex (exp (- (real z * real z))) 0.

(** The property of the Faddeeva function that the bounds rest on: its real
    part is non-negative on the closed upper half-plane. *)
Definition nonneg_on_upper_half_plane (w : complex -> complex) : Prop :=
  forall z, 0 <= imag z -> 0 <= real (w z).

(** The validity conditions of the data model (specification, section 3). *)
Definition valid_line (ln : line) : Prop :=
  0 < nu ln /\ 0 <= sw ln /\ 0 <= gamma_air ln.

(** * The code around the calculator

    The callers and helpers of the repository that are pure enough to embed:
    the atmosphere models and the layer loop of [ui/atmosphere_app.py], the
    mixture loop of [ui/streamlit_app.py], the downloader of
    [data_handler/hitran_api.py], the simplified spectrum of [app.py], the
    preset store of [ui/preset_manager.py] and two noise generators of
    [advanced_analysis.py].  File-system calls are taken to succeed, and the
    draws of [np.random] are arguments of the model. *)

#[global] Instance Rle_decision (x y : R) : Decision (x <= y) := Rle_dec x y.
#[global] Instance Rlt_decision (x y : R) : Decision (x < y) := Rlt_dec x y.

(** [x ** y] on floats with a base [0 < x]; numpy answers [nan] for a
    negative base and a fractional exponent. *)
Definition float_power (x y : R) : R := Rpower x y.

(** ** [ui/atmosphere_app.py]: atmosphere models *)

Definition us_standard_atmosphere (altitude_km : R) : R * R * R :=
  let h := altitude_km * 1000 in
  let '(T, P) :=
    if decide (h <= 11000) then
      let T := 288.15 - 0.0065 * h in
      (T, 101325 * float_power (T / 288.15) 5.2561)
    else if decide (h <= 20000) then
      let T := 216.65 in
      (T, 22632 * exp (- 0.00015769 * (h - 11000)))
    else if decide (h <= 32000) then
      let T := 216.65 + 0.001 * (h - 20000) in
      (T, 5474.9 * float_power (T / 216.65) (- 34.163))
    else if decide (h <= 47000) then
      let T := 228.65 + 0.0028 * (h - 32000) in
      (T, 868.02 * float_power (T / 228.65) (- 12.201))
    else if decide (h <= 51000) then
      let T := 270.65 in
      (T, 110.91 * exp (- 0.00012622 * (h - 47000)))
    else
      let T := 270.65 - 0.0028 * (h - 51000) in
      (T, 66.939 * float_power (T / 270.65) 12.201) in
  let R := 287.0 in
  let rho := P / (R * T) in
  (T, P, rho).

Definition tropical_atmosphere (altitude_km : R) : R * R * R :=
  let '(T_std, P_std, rho_std) := us_standard_atmosphere altitude_km in
  let '(T, P) :=
    if decide (altitude_km <= 10) then (T_std + 5, P_std * 1.05)
    else (T_std + 2, P_std * 0.98) in
  let rho := P / (287.0 * T) in
  (T, P, rho).

Definition polar_atmosphere (altitude_km : R) : R * R * R :=
  let '(T_std, P_std, rho_std) := us_standard_atmosphere altitude_km in
  let '(T, P) :=
    if decide (altitude_km <= 10) then (T_std - 20, P_std * 0.95)
    else (T_std - 10, P_std * 0.92) in
  let rho := P / (287.0 * T) in
  (T, P, rho).

(** ** [data_handler/hitran_api.py]: the downloader *)

Definition molecule_ids : gmap string nat :=
  list_to_map
    [ ("H2O", 1%nat); ("CO2", 2%nat); ("O3", 3%nat); ("N2O", 4%nat);
      ("CO", 5%nat); ("CH4", 6%nat); ("O2", 7%nat); ("NO", 8%nat);
      ("SO2", 9%nat); ("NO2", 10%nat); ("NH3", 11%nat); ("HNO3", 12%nat);
      ("OH", 13%nat); ("HF", 14%nat); ("HCl", 15%nat); ("HBr", 16%nat);
      ("HI", 17%nat); ("ClO", 18%nat); ("OCS", 19%nat); ("H2CO", 20%nat);
      ("HOCl", 21%nat); ("N2", 22%nat); ("HCN", 23%nat); ("CH3Cl", 24%nat);
      ("H2O2", 25%nat); ("C2H2", 26%nat); ("C2H6", 27%nat); ("PH3", 28%nat) ].


(** ** [app.py]: the simplified spectrum *)

Module App.

(** [np.any(mask)]. *)
Definition np_any (mask : list bool) : bool := existsb (fun b => b) mask.

(** [values[mask].sum()]. *)
Definition masked_sum (values : list R) (mask : list bool) : R :=
  foldr Rplus 0 ((fun p : R * bool => if p.2 then p.1 else 0) <$> zip values mask).

(** The body of [for i, wl in enumerate(wavelength)], from index [i] on. *)
Fixpoint each_wavelength
    (data : list line) (path_length : R)
    (i : nat) (wavelength : list R) (absorption : list R) : list R :=
  match wavelength with
  | [] => absorption
  | wl :: rest =>
      let wavenumber := 1e7 / wl in
      let line_centers := (fun ln => 1e7 / nu ln) <$> data in
      let nearby_lines :=
        (fun lc => bool_decide (Rabs (lc - wl) < 0.1)) <$> line_centers in
      let absorption :=
        if np_any nearby_lines then
          let line_strength := masked_sum (sw <$> data) nearby_lines in
          let line_width := 0.1 in
          <[i := line_strength * path_length / (1 + ((wl - wl) / line_width) ^ 2)]>
            absorption
        else absorption in
      each_wavelength data path_length (S i) rest absorption
  end.

Definition calculate_absorption_spectrum
    (data : option (list line)) (wavelength : list R)
    (temperature pressure path_length : R) : list R :=
  match data with
  | None => zeros_like wavelength
  | Some rows =>
      if decide (length rows = 0%nat) then zeros_like wavelength
      else each_wavelength rows path_length 0 wavelength (zeros_like wavelength)
  end.

End App.

(** ** [ui/preset_manager.py]: the preset store *)

(** JSON values, as [json.dump] writes and [json.load] reads them. *)
#[warnings="-register-all"]
Inductive json : Type :=
  | JNull
  | JBool (b : bool)
  | JNumber (r : R)
  | JString (s : string)
  | JArray (items : list json)
  | JObject (fields : list (string * json)).

(** The preset file, in the three states the methods handle: absent ([open]
    raises [FileNotFoundError]), a text that [json.load] rejects with
    [json.JSONDecodeError], or the JSON of a dict of presets, each preset a
    dict itself.  A file whose bytes are not UTF-8 ([UnicodeDecodeError],
    which [load_presets] does not catch) or whose JSON is not such a dict
    makes the methods raise, and is not among the states modelled. *)
Inductive preset_file : Type :=
  | FileMissing
  | FileInvalid
  | FileStored (presets : gmap string (gmap string json)).

(** [load_presets]: [FileNotFoundError] and [json.JSONDecodeError] give [{}];
    no other exception is caught. *)
Definition load_presets (file : preset_file) : gmap string (gmap string json) :=
  match file with
  | FileStored presets => presets
  | FileMissing | FileInvalid => ∅
  end.

Definition save_presets (presets : gmap string (gmap string json)) : preset_file :=
  FileStored presets.

(** [add_preset]; [now] is [datetime.now().strftime('%Y-%m-%d %H:%M:%S')]. *)
Definition add_preset
    (now : string) (preset_id : string) (preset_data : gmap string json)
    (file : preset_file) : preset_file :=
  let presets := load_presets file in
  let preset_data := <["created_date" := JString now]> preset_data in
  let presets := <[preset_id := preset_data]> presets in
  save_presets presets.

(** [delete_preset]: the returned flag and the file afterwards. *)
Definition delete_preset (preset_id : string) (file : preset_file)
    : bool * preset_file :=
  let presets := load_presets file in
  if decide (is_Some (presets !! preset_id)) then
    (true, save_presets (delete preset_id presets))
  else (false, file).

Definition get_preset (preset_id : string) (file : preset_file)
    : option (gmap string json) :=
  load_presets file !! preset_id.

(** [v.get('category') == category] for a string [category]. *)
Definition has_category (category : string) (v : gmap string json) : bool :=
  match v !! "category" with
  | Some (JString s) => bool_decide (s = category)
  | _ => false
  end.

(** [get_presets_by_category]; [if category:] is false for [None] and for
    the empty string. *)
Definition get_presets_by_category (category : option string) (file : preset_file)
    : gmap string (gmap string json) :=
  let presets := load_presets file in
  match category with
  | Some c =>
      if bool_decide (c = "") then presets
      else filter (fun kv => has_category c kv.2 = true) presets
  | None => presets
  end.

(** ** [advanced_analysis.py]: noise generators *)

(** [a.min()] and [a.max()]; [None] stands for the [ValueError] that numpy
    raises on an empty array. *)
Definition array_min (a : list R) : option R :=
  match a with
  | [] => None
  | x :: rest => Some (foldl Rmin x rest)
  end.

Definition array_max (a : list R) : option R :=
  match a with
  | [] => None
  | x :: rest => Some (foldl Rmax x rest)
  end.

(** [a + b] on one-dimensional arrays, with numpy's broadcasting of a
    length-1 operand; [None] stands for the [ValueError] of a shape
    mismatch. *)
Definition broadcast_add (a b : list R) : option (list R) :=
  if decide (length a = length b) then Some (zip_with Rplus a b)
  else
    match a, b with
    | [x], _ => Some ((fun y => x + y) <$> b)
    | _, [y] => Some ((fun x => x + y) <$> a)
    | _, _ => None
    end.

(** [NoiseSimulator.add_baseline_drift].  [sin] is the real sine, with
    which [np.sin] agrees up to rounding (and exactly at 0). *)
Definition add_baseline_drift
    (spectrum wavelength : list R) (drift_amplitude drift_frequency : R)
    : option (list R * list R) :=
  lo ← array_min wavelength;
  hi ← array_max wavelength;
  let baseline :=
    (fun wl => drift_amplitude
               * sin (2 * PI * drift_frequency * (wl - lo) / (hi - lo)))
      <$> wavelength in
  noisy ← broadcast_add spectrum baseline;
  Some (noisy, baseline).

(** The loop [for pos, val in zip(spike_positions, spike_values)]. *)
Fixpoint place_spikes (spikes_at : list (nat * R)) (noisy_spectrum spikes : list R)
    : list R * list R :=
  match spikes_at with
  | [] => (noisy_spectrum, spikes)
  | (pos, val) :: rest =>
      place_spikes rest
        (alter (fun v => v + val) pos noisy_spectrum)
        (<[pos := val]> spikes)
  end.

(** [NoiseSimulator.add_spikes].  [spike_positions] is the draw
    [np.random.randint(0, len(spectrum), num_spikes)] and [spike_values] the
    draw [np.random.normal(0, spike_amplitude, num_spikes)]; there is no
    position to draw in an empty spectrum, and [None] stands for the
    [ValueError] of that draw. *)
Definition add_spikes
    (spectrum : list R) (spike_positions : list nat) (spike_values : list R)
    : option (list R * list R) :=
  match spectrum, spike_positions with
  | [], _ :: _ => None
  | _, _ =>
      let noisy_spectrum := spectrum in
      let spikes := zeros_like spectrum in
      Some (place_spikes (zip spike_positions spike_values) noisy_spectrum spikes)
  end.

(** ** The loops of the pages

    Both loops run inside [try: ... except Exception as e: st.error(...)]:
    [None] stands for the error message. *)

Definition caught {A : Type} (m : outcome A) : option A :=
  match m with
  | Returned a => Some a
  | Raised _ => None
  end.

Section Pages.

Variable wofz : complex -> complex.

(** [ui/streamlit_app.py], the loop over [selected_molecules].  [download]
    is [hitran_api.download_molecule_data] at the wavelength range of the
    page. *)
Fixpoint mixture_loop
    (download : string -> option (list line))
    (frequency_grid : list R) (temperature pressure_atm path_length_m : R)
    (molecule_concentrations : gmap string R)
    (selected_molecules : list string)
    (individual_spectra : gmap string spectrum) (combined_absorption : list R)
    : option (gmap string spectrum * list R) :=
  match selected_molecules with
  | [] => Some (individual_spectra, combined_absorption)
  | molecule :: rest =>
      let hitran_data := download molecule in
      match hitran_data with
      | Some (ln :: lines) =>
          ppb ← molecule_concentrations !! molecule;
          let concentration := ppb / 1e9 in
          spectrum ← caught (calculate_absorption_spectrum wofz (ln :: lines)
                               frequency_grid temperature pressure_atm
                               concentration path_length_m molecule);
          mixture_loop download frequency_grid temperature pressure_atm
            path_length_m molecule_concentrations rest
            (<[molecule := spectrum]> individual_spectra)
            (array_add combined_absorption (absorption_coeff spectrum))
      | _ =>
          mixture_loop download frequency_grid temperature pressure_atm
            path_length_m molecule_concentrations rest
            individual_spectra combined_absorption
      end
  end.

(** The mixture computed by the page: the individual spectra, the combined
    transmittance and the combined absorbance. *)
Definition mixture_spectrum
    (download : string -> option (list line))
    (frequency_grid : list R) (temperature pressure_torr path_length_m : R)
    (molecule_concentrations : gmap string R)
    (selected_molecules : list string)
    : option (gmap string spectrum * list R * list R) :=
  let pressure_atm := pressure_torr / 760.0 in
  match mixture_loop download frequency_grid temperature pressure_atm
          path_length_m molecule_concentrations selected_molecules ∅
          (zeros_like frequency_grid) with
  | None => None
  | Some (individual_spectra, combined_absorption) =>
      let combined_transmittance :=
        (fun a => exp (- a * path_length_m)) <$> combined_absorption in
      let combined_absorbance := (fun t => - log10 t) <$> combined_transmittance in
      Some (individual_spectra, combined_transmittance, combined_absorbance)
  end.

(** [ui/atmosphere_app.py], the loop over the layers
    [zip(altitudes, temperatures, pressures, concentrations)]. *)
Definition layer_thickness : R := 1000.

Fixpoint layer_loop
    (hitran_data : list line) (frequency_grid : list R) (molecule : string)
    (layers : list (R * R * R * R))
    (layer_spectra : list spectrum) (total_absorption : list R)
    : option (list spectrum * list R) :=
  match layers with
  | [] => Some (layer_spectra, total_absorption)
  | (alt, T, P_hPa, conc) :: rest =>
      spectrum ← caught (calculate_absorption_spectrum wofz hitran_data
                           frequency_grid T (P_hPa / 760.0) (conc / 1e9)
                           layer_thickness molecule);
      layer_loop hitran_data frequency_grid molecule rest
        (layer_spectra ++ [spectrum])
        (array_add total_absorption
           ((fun a => a * layer_thickness) <$> absorption_coeff spectrum))
  end.

Definition zip4 (altitudes temperatures pressures concentrations : list R)
    : list (R * R * R * R) :=
  zip (zip (zip altitudes temperatures) pressures) concentrations.

(** The layered atmosphere: the layer spectra, the total transmittance and
    the total absorbance. *)
Definition atmosphere_spectrum
    (hitran_data : list line) (frequency_grid : list R) (molecule : string)
    (altitudes temperatures pressures concentrations : list R)
    : option (list spectrum * list R * list R) :=
  match layer_loop hitran_data frequency_grid molecule
          (zip4 altitudes temperatures pressures concentrations)
          [] (zeros_like frequency_grid) with
  | None => None
  | Some (layer_spectra, total_absorption) =>
      let total_transmittance := (fun a => exp (- a)) <$> total_absorption in
      let total_absorbance := (fun t => - log10 t) <$> total_transmittance in
      Some (layer_spectra, total_transmittance, total_absorbance)
  end.

End Pages.

(** The value a list of spectra has at grid index [k] in one of its arrays. *)
Definition values_at (field : spectrum -> list R) (k : nat) (spectra : list spectrum)
    : list R :=
  (fun s => default 0 (field s !! k)) <$> spectra.

(** The spectra of the molecules that [mixture_loop] computed, in the order
    of the selection. *)
Definition computed_spectra
    (individual_spectra : gmap string spectrum) (selected_molecules : list string)
    : list spectrum :=
  omap (fun m => individual_spectra !! m) selected_molecules.


(** The summed intensity of the lines of [rows] whose center, in nm, lies
    within 0.1 nm of the wavelength [wl]. *)
Definition strength_near (rows : list line) (wl : R) : R :=
  foldr Rplus 0 (sw <$> filter (fun ln => Rabs (1e7 / nu ln - wl) < 0.1) rows).

(** A spectrum of [n] samples whose transmittance and absorbance come from
    its absorption coefficient by the Beer-Lambert law over [path_length]. *)
Definition beer_lambert_spectrum (path_length : R) (n : nat) (s : spectrum) : Prop :=
  length (absorption_coeff s) = n /\
  transmittance s = (fun a => exp (- (a * path_length))) <$> absorption_coeff s /\
  absorbance s = (fun t => - log10 t) <$> transmittance s.

(** * Properties *)

(** ** Scalars *)

Lemma pydiv_returns (a b : R) : b <> 0 -> pydiv a b = Returned (a / b).
Proof. intros Hb. unfold pydiv. destruct (decide (b = 0)); [contradiction | reflexivity]. Qed.

Lemma pypow_half (x : R) : 0 <= x -> pypow x 0.5 = sqrt x.
Proof.
  intros Hx. unfold pypow. destruct (decide (x = 0)) as [-> | Hne].
  - symmetry. apply sqrt_0.
  - replace 0.5 with (/ 2) by lra. apply Rpower_sqrt. lra.
Qed.

Lemma c_pos : 0 < c.
Proof. unfold c. lra. Qed.

Lemma thermal_factor_pos (temperature : R) :
  0 < temperature -> 0 < 2 * k_B * temperature * N_A.
Proof.
  intros HT.
  assert (Hk : 0 < k_B) by (unfold k_B; lra).
  assert (Hn : 0 < N_A) by (unfold N_A; lra).
  apply Rmult_lt_0_compat; [| exact Hn].
  apply Rmult_lt_0_compat; [| exact HT].
  lra.
Qed.

Lemma sqrt_pi_pos : 0 < sqrt PI.
Proof. apply sqrt_lt_R0, PI_RGT_0. Qed.

Lemma ln_10_pos : 0 < ln 10.
Proof. rewrite <- ln_1. apply ln_increasing; lra. Qed.

(** ** The molar-mass table *)

Lemma molecular_masses_positive (molecule : string) (m : R) :
  molecular_masses !! molecule = Some m -> 0 < m.
Proof.
  intros Hm. apply elem_of_list_to_map_2 in Hm.
  assert (Hall : Forall (fun p : string * R => 0 < p.2) molecular_masses_items).
  { unfold molecular_masses_items. repeat constructor; simpl; lra. }
  rewrite Forall_forall in Hall. apply (Hall (molecule, m)), Hm.
Qed.

Lemma molecular_mass_of_pos (molecule : string) : 0 < molecular_mass_of molecule.
Proof.
  unfold molecular_mass_of.
  destruct (molecular_masses !! molecule) as [m|] eqn:Hm; simpl.
  - eapply molecular_masses_positive, Hm.
  - lra.
Qed.

Lemma molecular_mass_of_unknown (molecule : string) :
  molecule ∉ dom molecular_masses -> molecular_mass_of molecule = 18.015.
Proof.
  intros Hdom. unfold molecular_mass_of.
  apply not_elem_of_dom in Hdom. rewrite Hdom. reflexivity.
Qed.

(** ** Widths *)

Lemma doppler_width_returns (center_freq temperature molecular_mass : R) :
  molecular_mass <> 0 ->
  calculate_doppler_width center_freq temperature molecular_mass
  = Returned (spec_doppler_width center_freq temperature molecular_mass).
Proof.
  intros Hm. unfold calculate_doppler_width.
  rewrite pydiv_returns; [reflexivity |].
  intros Hz. apply Hm. lra.
Qed.

Lemma spec_doppler_width_pos (center_freq temperature molecular_mass : R) :
  0 < center_freq -> 0 < temperature -> 0 < molecular_mass ->
  0 < spec_doppler_width center_freq temperature molecular_mass.
Proof.
  intros Hc HT Hm. unfold spec_doppler_width.
  apply Rmult_lt_0_compat.
  - apply Rdiv_lt_0_compat; [assumption | apply c_pos].
  - apply sqrt_lt_R0, Rdiv_lt_0_compat; [apply thermal_factor_pos, HT | lra].
Qed.

Lemma spec_doppler_width_heavier (center_freq temperature m1 m2 : R) :
  0 < center_freq -> 0 < temperature -> 0 < m1 -> m1 < m2 ->
  spec_doppler_width center_freq temperature m2
  < spec_doppler_width center_freq temperature m1.
Proof.
  intros Hc HT Hm1 Hm12. unfold spec_doppler_width.
  apply Rmult_lt_compat_l; [apply Rdiv_lt_0_compat; [assumption | apply c_pos] |].
  pose proof (thermal_factor_pos temperature HT) as HK.
  apply sqrt_lt_1_alt. split.
  - left. apply Rdiv_lt_0_compat; [assumption | lra].
  - apply Rmult_lt_compat_l; [assumption |].
    apply Rinv_lt_contravar; [| lra].
    apply Rmult_lt_0_compat; lra.
Qed.

Lemma lorentz_width_returns (pb pressure temperature ref_temp : R) :
  0 < temperature -> 0 <= ref_temp ->
  calculate_lorentz_width pb pressure temperature (Some ref_temp)
  = Returned (spec_lorentz_width pb pressure temperature ref_temp).
Proof.
  intros HT Href. unfold calculate_lorentz_width, spec_lorentz_width. simpl.
  rewrite pydiv_returns by lra. simpl.
  rewrite pypow_half; [reflexivity |].
  apply Rmult_le_pos; [lra |].
  left. apply Rinv_0_lt_compat, HT.
Qed.

Lemma lorentz_width_default (pb pressure temperature : R) :
  calculate_lorentz_width pb pressure temperature None
  = calculate_lorentz_width pb pressure temperature (Some 296.0).
Proof. reflexivity. Qed.

(** ** The Voigt profile and the loop over the lines *)

Section Synthesis.

Variable wofz : complex -> complex.

Lemma voigt_argument (x y : R) :
  Cadd (of_float x) (Cmul imaginary_unit (of_float y)) = Complex x y.
Proof. unfold Cadd, Cmul, of_float, imaginary_unit. simpl. f_equal; ring. Qed.

Lemma voigt_profile_spec (frequency : list R) (center_freq gamma_lorentz gamma_doppler : R) :
  voigt_profile wofz frequency center_freq gamma_lorentz gamma_doppler
  = spec_voigt_profile wofz frequency center_freq gamma_lorentz gamma_doppler.
Proof.
  unfold voigt_profile, spec_voigt_profile.
  rewrite <- !list_fmap_compose. apply list_fmap_ext.
  intros k f _. simpl. unfold spec_voigt_point. rewrite voigt_argument. reflexivity.
Qed.

Lemma voigt_profile_length (frequency : list R) (center_freq gamma_lorentz gamma_doppler : R) :
  length (voigt_profile wofz frequency center_freq gamma_lorentz gamma_doppler)
  = length frequency.
Proof. unfold voigt_profile. rewrite !length_fmap. reflexivity. Qed.

Lemma add_line_spec
    (grid : list R) (temperature pressure concentration molecular_mass : R)
    (acc : list R) (ln : line) :
  0 < temperature -> 0 < molecular_mass ->
  add_line wofz grid temperature pressure concentration molecular_mass acc ln
  = Returned (spec_accumulate wofz grid temperature pressure concentration
                molecular_mass acc ln).
Proof.
  intros HT Hm. unfold add_line, spec_accumulate.
  rewrite doppler_width_returns by lra. simpl.
  rewrite lorentz_width_default, lorentz_width_returns by lra. simpl.
  rewrite voigt_profile_spec. unfold array_add, default_reference_temperature.
  rewrite <- list_fmap_compose. reflexivity.
Qed.

Lemma for_each_line_spec
    (grid : list R) (temperature pressure concentration molecular_mass : R)
    (hitran_data : list line) (acc : list R) :
  0 < temperature -> 0 < molecular_mass ->
  for_each_line wofz grid temperature pressure concentration molecular_mass acc hitran_data
  = Returned (foldl (spec_accumulate wofz grid temperature pressure concentration
                       molecular_mass) acc hitran_data).
Proof.
  intros HT Hm. revert acc.
  induction hitran_data as [| ln rest IH]; intros acc; simpl.
  - reflexivity.
  - rewrite add_line_spec by assumption. simpl. apply IH.
Qed.

Lemma absorption_spectrum_spec
    (hitran_data : list line) (grid : list R)
    (temperature pressure concentration path_length : R) (molecule : string) :
  0 < temperature ->
  calculate_absorption_spectrum wofz hitran_data grid temperature pressure
    concentration path_length molecule
  = Returned (spec_absorption_spectrum wofz hitran_data grid temperature pressure
                concentration path_length (molecular_mass_of molecule)).
Proof.
  intros HT. unfold calculate_absorption_spectrum, spec_absorption_spectrum.
  rewrite for_each_line_spec by (assumption || apply molecular_mass_of_pos).
  simpl. unfold zeros_like. do 2 f_equal.
  - apply list_fmap_ext. intros k a _. simpl. f_equal. ring.
  - f_equal. apply list_fmap_ext. intros k a _. simpl. f_equal. ring.
Qed.

Lemma spec_accumulate_length
    (grid : list R) (temperature pressure concentration mass : R)
    (acc : list R) (ln : line) :
  length acc = length grid ->
  length (spec_accumulate wofz grid temperature pressure concentration mass acc ln)
  = length grid.
Proof.
  intros Hacc. unfold spec_accumulate, spec_voigt_profile.
  rewrite length_zip_with, !length_fmap, Hacc. apply Nat.min_id.
Qed.

Lemma spec_loop_length
    (grid : list R) (temperature pressure concentration mass : R)
    (lines : list line) (acc : list R) :
  length acc = length grid ->
  length (foldl (spec_accumulate wofz grid temperature pressure concentration mass)
            acc lines) = length grid.
Proof.
  revert acc. induction lines as [| ln rest IH]; intros acc Hacc; simpl.
  - exact Hacc.
  - apply IH, spec_accumulate_length, Hacc.
Qed.

Lemma spec_spectrum_lengths
    (lines : list line) (grid : list R)
    (temperature pressure concentration path_length mass : R) :
  let r := spec_absorption_spectrum wofz lines grid temperature pressure
             concentration path_length mass in
  frequency r = grid /\
  length (absorption_coeff r) = length grid /\
  length (transmittance r) = length grid /\
  length (absorbance r) = length grid.
Proof.
  simpl. rewrite !length_fmap.
  rewrite spec_loop_length by apply length_replicate. auto.
Qed.

End Synthesis.

Lemma gaussian_kernel_nonneg : nonneg_on_upper_half_plane gaussian_kernel.
Proof. intros z _. simpl. left. apply exp_pos. Qed.

(** ** Line-Shape Evaluator *)

(** C5. For every center frequency, every temperature > 0 and every
    molecular mass > 0, [calculate_doppler_width] returns
    (center_frequency / c) * sqrt (2 * k_B * T * N_A / (M * 1e-3)), and the
    width is strictly positive whenever the center frequency is. *)
Theorem doppler_width_formula (center_frequency temperature molecular_mass : R) :
  0 < temperature -> 0 < molecular_mass ->
  exists width,
    calculate_doppler_width center_frequency temperature molecular_mass
    = Returned width /\
    width = (center_frequency / c)
            * sqrt (2 * k_B * temperature * N_A / (molecular_mass * 1e-3)) /\
    (0 < center_frequency -> 0 < width).
Proof.
  intros HT Hm. eexists. split; [apply doppler_width_returns; lra |].
  split; [reflexivity |].
  intros Hc. apply spec_doppler_width_pos; assumption.
Qed.

Lemma doppler_width_formula_witness :
  0 < 296.15 /\ 0 < 18.015 /\
  exists width,
    calculate_doppler_width 6648.88 296.15 18.015 = Returned width /\
    width = (6648.88 / c) * sqrt (2 * k_B * 296.15 * N_A / (18.015 * 1e-3)) /\
    (0 < 6648.88 -> 0 < width).
Proof.
  split; [lra |]. split; [lra |].
  apply (doppler_width_formula 6648.88 296.15 18.015); lra.
Defined.

Lemma sqrt_ratio_antitone (ref_temp t1 t2 : R) :
  0 <= ref_temp -> 0 < t1 -> t1 <= t2 -> sqrt (ref_temp / t2) <= sqrt (ref_temp / t1).
Proof.
  intros Href Ht1 Ht12. apply sqrt_le_1_alt.
  apply Rmult_le_compat_l; [assumption |].
  apply Rinv_le_contravar; assumption.
Qed.

(** C6. For every broadening coefficient and pressure, every temperature
    > 0 and every reference temperature >= 0, [calculate_lorentz_width]
    returns
    air_broadening_coefficient * pressure * sqrt (reference_temperature / temperature),
    the reference temperature being 296.0 when it is not supplied; for a
    broadening coefficient >= 0, as the data model has it, the width is
    non-decreasing in the pressure at fixed temperature and, for a pressure
    >= 0, non-increasing in the temperature at fixed pressure. *)
Theorem lorentz_width_formula
    (air_broadening_coefficient pressure temperature reference_temperature : R) :
  0 < temperature -> 0 <= reference_temperature ->
  exists width,
    calculate_lorentz_width air_broadening_coefficient pressure temperature
      (Some reference_temperature) = Returned width /\
    width = air_broadening_coefficient * pressure
            * sqrt (reference_temperature / temperature) /\
    calculate_lorentz_width air_broadening_coefficient pressure temperature None
    = Returned (air_broadening_coefficient * pressure * sqrt (296.0 / temperature)) /\
    (0 <= air_broadening_coefficient ->
       forall pressure' width',
         pressure <= pressure' ->
         calculate_lorentz_width air_broadening_coefficient pressure' temperature
           (Some reference_temperature) = Returned width' ->
         width <= width') /\
    (0 <= air_broadening_coefficient -> 0 <= pressure ->
       forall temperature' width',
         temperature <= temperature' ->
         calculate_lorentz_width air_broadening_coefficient pressure temperature'
           (Some reference_temperature) = Returned width' ->
         width' <= width).
Proof.
  intros HT Href. eexists. split; [apply lorentz_width_returns; assumption |].
  split; [reflexivity |].
  split; [rewrite lorentz_width_default; apply lorentz_width_returns; lra |].
  assert (Hs : 0 <= sqrt (reference_temperature / temperature)) by apply sqrt_pos.
  split.
  - intros Ha p' w' Hp Hw'.
    rewrite lorentz_width_returns in Hw' by assumption.
    injection Hw' as <-. unfold spec_lorentz_width.
    apply Rmult_le_compat_r; [assumption |].
    apply Rmult_le_compat_l; assumption.
  - intros Ha Hp T' w' HTT' Hw'.
    rewrite lorentz_width_returns in Hw' by lra.
    injection Hw' as <-. unfold spec_lorentz_width.
    apply Rmult_le_compat_l; [apply Rmult_le_pos; assumption |].
    apply sqrt_ratio_antitone; assumption.
Qed.

Lemma lorentz_width_formula_witness :
  0 < 296.15 /\ 0 <= 296.0 /\
  exists width,
    calculate_lorentz_width 0.05 1 296.15 (Some 296.0) = Returned width /\
    width = 0.05 * 1 * sqrt (296.0 / 296.15) /\
    calculate_lorentz_width 0.05 1 296.15 None
    = Returned (0.05 * 1 * sqrt (296.0 / 296.15)) /\
    (0 <= 0.05 ->
       forall pressure' width',
         1 <= pressure' ->
         calculate_lorentz_width 0.05 pressure' 296.15 (Some 296.0) = Returned width' ->
         width <= width') /\
    (0 <= 0.05 -> 0 <= 1 ->
       forall temperature' width',
         296.15 <= temperature' ->
         calculate_lorentz_width 0.05 1 temperature' (Some 296.0) = Returned width' ->
         width' <= width).
Proof.
  split; [lra |]. split; [lra |].
  apply (lorentz_width_formula 0.05 1 296.15 296.0); lra.
Defined.

Section Profile.

Variable wofz : complex -> complex.

(** C4. For every frequency grid, center frequency and Lorentz width and
    every positive Doppler width, [voigt_profile] returns an array of the
    grid's length holding, at each grid point f, the real part of the
    Faddeeva function at x + i*y, x = (f - center_frequency) / doppler_width,
    y = lorentz_width / doppler_width, divided by doppler_width * sqrt(pi);
    for a Lorentz width >= 0 every element is >= 0, the Faddeeva function
    having a non-negative real part on the upper half-plane. *)
Theorem voigt_profile_faddeeva
    (frequency_grid : list R) (center_frequency lorentz_width doppler_width : R) :
  0 < doppler_width ->
  let profile :=
    voigt_profile wofz frequency_grid center_frequency lorentz_width doppler_width in
  length profile = length frequency_grid /\
  (forall (k : nat) (f : R),
     frequency_grid !! k = Some f ->
     profile !! k
     = Some (real (wofz (Complex ((f - center_frequency) / doppler_width)
                                 (lorentz_width / doppler_width)))
             / (doppler_width * sqrt PI))) /\
  (nonneg_on_upper_half_plane wofz -> 0 <= lorentz_width ->
   Forall (fun v => 0 <= v) profile).
Proof.
  intros Hd profile. subst profile.
  split; [apply voigt_profile_length |].
  rewrite voigt_profile_spec. unfold spec_voigt_profile. split.
  - intros k f Hk. rewrite list_lookup_fmap, Hk. reflexivity.
  - intros Hw Hl. apply Forall_fmap, Forall_forall. intros f _. simpl.
    unfold spec_voigt_point.
    apply Rmult_le_pos.
    + apply Hw. simpl. apply Rmult_le_pos; [assumption |].
      left. apply Rinv_0_lt_compat, Hd.
    + left. apply Rinv_0_lt_compat, Rmult_lt_0_compat; [assumption | apply sqrt_pi_pos].
Qed.

End Profile.

Lemma voigt_profile_faddeeva_witness :
  nonneg_on_upper_half_plane gaussian_kernel /\ 0 < 0.02 /\ 0 <= 0.05 /\
  let profile := voigt_profile gaussian_kernel [6648; 6648.88; 6650] 6648.88 0.05 0.02 in
  length profile = length [6648; 6648.88; 6650] /\
  (forall (k : nat) (f : R),
     [6648; 6648.88; 6650] !! k = Some f ->
     profile !! k
     = Some (real (gaussian_kernel (Complex ((f - 6648.88) / 0.02) (0.05 / 0.02)))
             / (0.02 * sqrt PI))) /\
  Forall (fun v => 0 <= v) profile.
Proof.
  split; [apply gaussian_kernel_nonneg |]. split; [lra |]. split; [lra |].
  destruct (voigt_profile_faddeeva gaussian_kernel [6648; 6648.88; 6650]
              6648.88 0.05 0.02) as (Hlen & Hpoint & Hnonneg); [lra |].
  split; [exact Hlen |]. split; [exact Hpoint |].
  apply Hnonneg; [apply gaussian_kernel_nonneg | lra].
Defined.

(** ** Spectrum Synthesizer *)

Lemma molecular_masses_size : size molecular_masses = 28%nat.
Proof. vm_compute. reflexivity. Qed.

Lemma molecular_mass_of_CO2 : molecular_mass_of "CO2" = 44.01.
Proof. reflexivity. Qed.

Lemma molecular_mass_of_H2O : molecular_mass_of "H2O" = 18.015.
Proof. reflexivity. Qed.

Lemma molecular_mass_of_known (molecule : string) (m : R) :
  molecular_masses !! molecule = Some m -> molecular_mass_of molecule = m.
Proof. intros Hm. unfold molecular_mass_of. rewrite Hm. reflexivity. Qed.

Section Synthesizer.

Variable wofz : complex -> complex.

(** C3. For every line list, frequency grid and physical conditions
    (temperature > 0), [calculate_absorption_spectrum] returns the frequency
    grid together with: the absorption coefficient obtained from an all-zero
    array of the grid's length by adding, for each line,
    line_intensity * concentration * voigt_profile(grid, center_frequency,
    lorentz_width, doppler_width) * 1e20; transmittance =
    exp(-absorption_coefficient * path_length); absorbance =
    -log10(transmittance); all four arrays have the grid's length. *)
Theorem absorption_spectrum_algorithm
    (lines : list line) (frequency_grid : list R)
    (temperature pressure concentration path_length : R) (molecule : string) :
  0 < temperature ->
  exists r,
    calculate_absorption_spectrum wofz lines frequency_grid temperature pressure
      concentration path_length molecule = Returned r /\
    frequency r = frequency_grid /\
    absorption_coeff r
    = foldl (fun acc ln =>
               zip_with Rplus acc
                 ((fun p => sw ln * concentration * p * 1e20) <$>
                    spec_voigt_profile wofz frequency_grid (nu ln)
                      (spec_lorentz_width (gamma_air ln) pressure temperature 296.0)
                      (spec_doppler_width (nu ln) temperature
                         (molecular_mass_of molecule))))
            (replicate (length frequency_grid) 0) lines /\
    transmittance r = (fun a => exp (- (a * path_length))) <$> absorption_coeff r /\
    absorbance r = (fun t => - log10 t) <$> transmittance r /\
    length (absorption_coeff r) = length frequency_grid /\
    length (transmittance r) = length frequency_grid /\
    length (absorbance r) = length frequency_grid.
Proof.
  intros HT. eexists. split; [apply absorption_spectrum_spec, HT |].
  pose proof (spec_spectrum_lengths wofz lines frequency_grid temperature pressure
                concentration path_length (molecular_mass_of molecule)) as Hlen.
  simpl in Hlen. destruct Hlen as (_ & Ha & Ht & Hb).
  repeat split; assumption || reflexivity.
Qed.

(** C2, amended. [calculate_absorption_spectrum] takes the species as a
    molecule-name string and resolves the molar mass itself: its result is
    the result of the specified operation at the molar mass that the
    internal 28-entry table gives for the name, or at 18.015 when the name
    is not a key of the table. *)
Theorem molar_mass_resolved_by_name
    (lines : list line) (frequency_grid : list R)
    (temperature pressure concentration path_length : R) (molecule : string) :
  0 < temperature ->
  calculate_absorption_spectrum wofz lines frequency_grid temperature pressure
    concentration path_length molecule
  = Returned (spec_absorption_spectrum wofz lines frequency_grid temperature pressure
                concentration path_length (molecular_mass_of molecule)) /\
  (forall m, molecular_masses !! molecule = Some m -> molecular_mass_of molecule = m) /\
  (molecular_masses !! molecule = None -> molecular_mass_of molecule = 18.015) /\
  size molecular_masses = 28%nat.
Proof.
  intros HT. split; [apply absorption_spectrum_spec, HT |].
  split; [apply molecular_mass_of_known |].
  split; [| apply molecular_masses_size].
  intros Hnone. unfold molecular_mass_of. rewrite Hnone. reflexivity.
Qed.

(** C1, amended. Neither operation validates its inputs at entry, and no
    invalid-parameter error exists: for a temperature > 0 and a molecular
    mass > 0, [calculate_doppler_width] returns the value of its formula for
    every center frequency, zero and negative ones included, and
    [calculate_absorption_spectrum] returns four arrays of the grid's length
    for every grid, empty and non-monotonic ones included. *)
Theorem no_validation_at_entry
    (lines : list line) (frequency_grid : list R)
    (center_frequency temperature pressure concentration path_length molecular_mass : R)
    (molecule : string) :
  0 < temperature -> 0 < molecular_mass ->
  calculate_doppler_width center_frequency temperature molecular_mass
  = Returned ((center_frequency / c)
              * sqrt (2 * k_B * temperature * N_A / (molecular_mass * 1e-3))) /\
  exists r,
    calculate_absorption_spectrum wofz lines frequency_grid temperature pressure
      concentration path_length molecule = Returned r /\
    frequency r = frequency_grid /\
    length (absorption_coeff r) = length frequency_grid /\
    length (transmittance r) = length frequency_grid /\
    length (absorbance r) = length frequency_grid.
Proof.
  intros HT Hm.
  split; [apply doppler_width_returns; lra |].
  eexists. split; [apply absorption_spectrum_spec, HT |].
  apply spec_spectrum_lengths.
Qed.

End Synthesizer.

(** C2, the claim as stated fails: the method keeps a table that resolves
    the molar mass from the molecule name.  Called with the name "CO2" and
    no numeric mass, it computes with the table's 44.01 g/mol, and with
    "H2O" with 18.015 g/mol, so that the Doppler width of one and the same
    line is smaller for "CO2" than for "H2O". *)
Lemma molar_mass_table_inside :
  molecular_masses !! "CO2" = Some 44.01 /\
  molecular_masses !! "H2O" = Some 18.015 /\
  size molecular_masses = 28%nat /\
  (exists w w',
     calculate_doppler_width 6648.88 296.15 (molecular_mass_of "CO2") = Returned w /\
     calculate_doppler_width 6648.88 296.15 (molecular_mass_of "H2O") = Returned w' /\
     w < w') /\
  calculate_absorption_spectrum gaussian_kernel
    [Line 6648.88 1e-20 0.05] [6648; 6648.88; 6650] 296.15 1 1e-3 1000 "CO2"
  = Returned (spec_absorption_spectrum gaussian_kernel
                [Line 6648.88 1e-20 0.05] [6648; 6648.88; 6650] 296.15 1 1e-3 1000
                44.01) /\
  calculate_absorption_spectrum gaussian_kernel
    [Line 6648.88 1e-20 0.05] [6648; 6648.88; 6650] 296.15 1 1e-3 1000 "H2O"
  = Returned (spec_absorption_spectrum gaussian_kernel
                [Line 6648.88 1e-20 0.05] [6648; 6648.88; 6650] 296.15 1 1e-3 1000
                18.015).
Proof.
  split; [reflexivity |]. split; [reflexivity |].
  split; [apply molecular_masses_size |].
  rewrite !absorption_spectrum_spec by lra.
  rewrite molecular_mass_of_CO2, molecular_mass_of_H2O.
  split; [| split; reflexivity].
  do 2 eexists.
  split; [apply doppler_width_returns; lra |].
  split; [apply doppler_width_returns; lra |].
  apply spec_doppler_width_heavier; lra.
Qed.

Lemma molar_mass_resolved_by_name_witness :
  0 < 296.15 /\
  calculate_absorption_spectrum gaussian_kernel
    [Line 6648.88 1e-20 0.05] [6648; 6648.88; 6650] 296.15 1 1e-3 1000 "CO2"
  = Returned (spec_absorption_spectrum gaussian_kernel
                [Line 6648.88 1e-20 0.05] [6648; 6648.88; 6650] 296.15 1 1e-3 1000
                (molecular_mass_of "CO2")) /\
  (forall m, molecular_masses !! "CO2" = Some m -> molecular_mass_of "CO2" = m) /\
  (molecular_masses !! "CO2" = None -> molecular_mass_of "CO2" = 18.015) /\
  size molecular_masses = 28%nat.
Proof.
  split; [lra |].
  apply (molar_mass_resolved_by_name gaussian_kernel
           [Line 6648.88 1e-20 0.05] [6648; 6648.88; 6650] 296.15 1 1e-3 1000 "CO2").
  lra.
Defined.

(** C1, the claim as stated fails: a zero center frequency, an empty grid
    and a non-monotonic grid are all accepted; the calls return. *)
Lemma invalid_input_accepted :
  ~ 0 < 0 /\
  calculate_doppler_width 0 296.15 18.015 = Returned 0 /\
  calculate_absorption_spectrum gaussian_kernel [] [] 296.15 1 1e-3 1000 "H2O"
  = Returned (Spectrum [] [] [] []) /\
  ~ 2 < 1 /\
  calculate_absorption_spectrum gaussian_kernel [] [2; 1] 296.15 1 1e-3 1000 "H2O"
  = Returned (Spectrum [2; 1] [0; 0] [1; 1] [0; 0]).
Proof.
  split; [lra |]. split.
  { rewrite doppler_width_returns by lra. f_equal.
    unfold spec_doppler_width, Rdiv. rewrite !Rmult_0_l. reflexivity. }
  split; [reflexivity |]. split; [lra |].
  unfold calculate_absorption_spectrum, zeros_like. simpl.
  replace (- 0 * 1000) with 0 by lra. rewrite exp_0.
  unfold log10. rewrite ln_1.
  replace (- (0 / ln 10)) with 0 by (unfold Rdiv; ring).
  reflexivity.
Qed.

Lemma no_validation_at_entry_witness :
  0 < 296.15 /\ 0 < 18.015 /\
  calculate_doppler_width (-1) 296.15 18.015
  = Returned ((-1 / c) * sqrt (2 * k_B * 296.15 * N_A / (18.015 * 1e-3))) /\
  exists r,
    calculate_absorption_spectrum gaussian_kernel [Line 6648.88 1e-20 0.05] [2; 1]
      296.15 1 1e-3 1000 "H2O" = Returned r /\
    frequency r = [2; 1] /\
    length (absorption_coeff r) = length [2; 1] /\
    length (transmittance r) = length [2; 1] /\
    length (absorbance r) = length [2; 1].
Proof.
  split; [lra |]. split; [lra |].
  apply (no_validation_at_entry gaussian_kernel [Line 6648.88 1e-20 0.05] [2; 1]
           (-1) 296.15 1 1e-3 1000 18.015 "H2O"); lra.
Defined.

Lemma absorption_spectrum_algorithm_witness :
  0 < 296.15 /\
  exists r,
    calculate_absorption_spectrum gaussian_kernel [Line 6648.88 1e-20 0.05]
      [6648; 6648.88; 6650] 296.15 1 1e-3 1000 "H2O" = Returned r /\
    frequency r = [6648; 6648.88; 6650] /\
    absorption_coeff r
    = foldl (fun acc ln =>
               zip_with Rplus acc
                 ((fun p => sw ln * 1e-3 * p * 1e20) <$>
                    spec_voigt_profile gaussian_kernel [6648; 6648.88; 6650] (nu ln)
                      (spec_lorentz_width (gamma_air ln) 1 296.15 296.0)
                      (spec_doppler_width (nu ln) 296.15 (molecular_mass_of "H2O"))))
            (replicate (length [6648; 6648.88; 6650]) 0) [Line 6648.88 1e-20 0.05] /\
    transmittance r = (fun a => exp (- (a * 1000))) <$> absorption_coeff r /\
    absorbance r = (fun t => - log10 t) <$> transmittance r /\
    length (absorption_coeff r) = length [6648; 6648.88; 6650] /\
    length (transmittance r) = length [6648; 6648.88; 6650] /\
    length (absorbance r) = length [6648; 6648.88; 6650].
Proof.
  split; [lra |].
  apply (absorption_spectrum_algorithm gaussian_kernel [Line 6648.88 1e-20 0.05]
           [6648; 6648.88; 6650] 296.15 1 1e-3 1000 "H2O").
  lra.
Defined.

(** ** Beer-Lambert transform *)

Lemma transmittance_bounds (a path_length : R) :
  0 <= a -> 0 <= path_length -> 0 <= exp (- (a * path_length)) <= 1.
Proof.
  intros Ha HL. split; [left; apply exp_pos |].
  assert (Hprod : 0 <= a * path_length) by (apply Rmult_le_pos; assumption).
  destruct Hprod as [Hpos | <-].
  - left. rewrite <- exp_0. apply exp_increasing. lra.
  - rewrite Ropp_0, exp_0. lra.
Qed.

Lemma absorbance_of_transmittance (a path_length : R) :
  - log10 (exp (- (a * path_length))) = a * path_length / ln 10.
Proof. unfold log10. rewrite ln_exp. unfold Rdiv. ring. Qed.

Lemma absorbance_nonneg (a path_length : R) :
  0 <= a -> 0 <= path_length -> 0 <= - log10 (exp (- (a * path_length))).
Proof.
  intros Ha HL. rewrite absorbance_of_transmittance.
  apply Rmult_le_pos; [apply Rmult_le_pos; assumption |].
  left. apply Rinv_0_lt_compat, ln_10_pos.
Qed.

(** ** Array arithmetic *)

Lemma array_add_nonneg (a b : list R) :
  Forall (Rle 0) a -> Forall (Rle 0) b -> Forall (Rle 0) (zip_with Rplus a b).
Proof.
  intros Ha. revert b. induction Ha as [| x a Hx Ha IH]; intros b Hb; simpl.
  - constructor.
  - destruct Hb as [| y b Hy Hb]; constructor.
    + lra.
    + apply IH, Hb.
Qed.

Lemma array_add_scale (k : R) (a b : list R) :
  zip_with Rplus (Rmult k <$> a) (Rmult k <$> b) = Rmult k <$> zip_with Rplus a b.
Proof.
  revert b. induction a as [| x a IH]; intros b; simpl; [reflexivity |].
  destruct b as [| y b]; simpl; [reflexivity |].
  f_equal; [ring | apply IH].
Qed.

Lemma array_add_zeros (grid : list R) (h : R -> R) :
  (forall f, h f = 0) ->
  zip_with Rplus (replicate (length grid) 0) (h <$> grid) = replicate (length grid) 0.
Proof.
  intros Hh. induction grid as [| f grid IH]; simpl; [reflexivity |].
  f_equal; [rewrite Hh; ring | exact IH].
Qed.

Section Accumulation.

Variable wofz : complex -> complex.

Lemma spec_voigt_point_nonneg (center_frequency lorentz_width doppler_width f : R) :
  nonneg_on_upper_half_plane wofz ->
  0 < doppler_width -> 0 <= lorentz_width ->
  0 <= spec_voigt_point wofz center_frequency lorentz_width doppler_width f.
Proof.
  intros Hw Hd Hl. unfold spec_voigt_point. apply Rmult_le_pos.
  - apply Hw. simpl. apply Rmult_le_pos; [assumption |].
    left. apply Rinv_0_lt_compat, Hd.
  - left. apply Rinv_0_lt_compat, Rmult_lt_0_compat; [assumption | apply sqrt_pi_pos].
Qed.

Lemma spec_lorentz_width_nonneg (a pressure temperature ref_temp : R) :
  0 <= a -> 0 <= pressure -> 0 <= spec_lorentz_width a pressure temperature ref_temp.
Proof.
  intros Ha Hp. unfold spec_lorentz_width.
  apply Rmult_le_pos; [apply Rmult_le_pos; assumption | apply sqrt_pos].
Qed.

Lemma spec_accumulate_nonneg
    (grid : list R) (temperature pressure concentration mass : R)
    (acc : list R) (ln : line) :
  nonneg_on_upper_half_plane wofz ->
  0 < temperature -> 0 <= pressure -> 0 <= concentration -> 0 < mass ->
  valid_line ln -> Forall (Rle 0) acc ->
  Forall (Rle 0)
    (spec_accumulate wofz grid temperature pressure concentration mass acc ln).
Proof.
  intros Hw HT HP Hc Hm (Hnu & Hsw & Hga) Hacc. unfold spec_accumulate.
  apply array_add_nonneg; [assumption |].
  unfold spec_voigt_profile. rewrite <- list_fmap_compose.
  apply Forall_fmap, Forall_forall. intros f _. simpl.
  apply Rmult_le_pos; [| lra].
  apply Rmult_le_pos; [apply Rmult_le_pos; assumption |].
  apply spec_voigt_point_nonneg; [assumption | |].
  - apply spec_doppler_width_pos; assumption.
  - apply spec_lorentz_width_nonneg; assumption.
Qed.

Lemma spec_loop_nonneg
    (grid : list R) (temperature pressure concentration mass : R)
    (lines : list line) (acc : list R) :
  nonneg_on_upper_half_plane wofz ->
  0 < temperature -> 0 <= pressure -> 0 <= concentration -> 0 < mass ->
  Forall valid_line lines -> Forall (Rle 0) acc ->
  Forall (Rle 0)
    (foldl (spec_accumulate wofz grid temperature pressure concentration mass)
       acc lines).
Proof.
  intros Hw HT HP Hc Hm Hlines. revert acc.
  induction Hlines as [| ln rest Hln Hrest IH]; intros acc Hacc; simpl.
  - exact Hacc.
  - apply IH, spec_accumulate_nonneg; assumption.
Qed.

Lemma spec_accumulate_scale
    (k : R) (grid : list R) (temperature pressure concentration mass : R)
    (acc : list R) (ln : line) :
  spec_accumulate wofz grid temperature pressure (k * concentration) mass
    (Rmult k <$> acc) ln
  = Rmult k <$> spec_accumulate wofz grid temperature pressure concentration mass acc ln.
Proof.
  unfold spec_accumulate. rewrite <- array_add_scale. f_equal.
  rewrite <- list_fmap_compose. apply list_fmap_ext.
  intros i p _. simpl. ring.
Qed.

Lemma spec_loop_scale
    (k : R) (grid : list R) (temperature pressure concentration mass : R)
    (lines : list line) (acc : list R) :
  foldl (spec_accumulate wofz grid temperature pressure (k * concentration) mass)
    (Rmult k <$> acc) lines
  = Rmult k <$> foldl (spec_accumulate wofz grid temperature pressure concentration mass)
                  acc lines.
Proof.
  revert acc. induction lines as [| ln rest IH]; intros acc; simpl; [reflexivity |].
  rewrite spec_accumulate_scale. apply IH.
Qed.

Lemma spec_accumulate_zero_concentration
    (grid : list R) (temperature pressure mass : R) (ln : line) :
  spec_accumulate wofz grid temperature pressure 0 mass (replicate (length grid) 0) ln
  = replicate (length grid) 0.
Proof.
  unfold spec_accumulate, spec_voigt_profile. rewrite <- list_fmap_compose.
  apply array_add_zeros. intros f. simpl. ring.
Qed.

Lemma spec_loop_zero_concentration
    (grid : list R) (temperature pressure mass : R) (lines : list line) :
  foldl (spec_accumulate wofz grid temperature pressure 0 mass)
    (replicate (length grid) 0) lines
  = replicate (length grid) 0.
Proof.
  induction lines as [| ln rest IH]; simpl; [reflexivity |].
  rewrite spec_accumulate_zero_concentration. exact IH.
Qed.

Lemma spec_spectrum_of_zeros
    (lines : list line) (grid : list R)
    (temperature pressure concentration path_length mass : R) :
  foldl (spec_accumulate wofz grid temperature pressure concentration mass)
    (replicate (length grid) 0) lines = replicate (length grid) 0 ->
  spec_absorption_spectrum wofz lines grid temperature pressure concentration
    path_length mass
  = Spectrum grid (replicate (length grid) 0) (replicate (length grid) 1)
      (replicate (length grid) 0).
Proof.
  intros Hzero. unfold spec_absorption_spectrum. rewrite Hzero.
  rewrite !fmap_replicate.
  replace (exp (- (0 * path_length))) with 1
    by (rewrite Rmult_0_l, Ropp_0, exp_0; reflexivity).
  replace (- log10 1) with 0
    by (unfold log10, Rdiv; rewrite ln_1; ring).
  reflexivity.
Qed.

End Accumulation.

Section SynthesizerProperties.

Variable wofz : complex -> complex.

(** C7. For every frequency grid and all physical conditions with
    temperature > 0, [calculate_absorption_spectrum] called with an empty
    line list, or with concentration 0 and any list of lines, returns
    without raising: the absorption coefficient is all zeros, the
    transmittance all ones and the absorbance all zeros.  The lines are
    taken with a non-zero center frequency, so that no Doppler width is 0
    and every division of the profile is one of real numbers. *)
Theorem zero_line_identity
    (lines : list line) (frequency_grid : list R)
    (temperature pressure concentration path_length : R) (molecule : string) :
  0 < temperature ->
  Forall (fun ln => nu ln <> 0) lines ->
  let identity :=
    Spectrum frequency_grid
      (replicate (length frequency_grid) 0)
      (replicate (length frequency_grid) 1)
      (replicate (length frequency_grid) 0) in
  calculate_absorption_spectrum wofz [] frequency_grid temperature pressure
    concentration path_length molecule = Returned identity /\
  calculate_absorption_spectrum wofz lines frequency_grid temperature pressure
    0 path_length molecule = Returned identity.
Proof.
  intros HT _ identity. subst identity.
  rewrite !absorption_spectrum_spec by assumption. split; f_equal.
  - apply spec_spectrum_of_zeros. reflexivity.
  - apply spec_spectrum_of_zeros, spec_loop_zero_concentration.
Qed.

(** C8. For every valid input (lines of positive center frequency,
    non-negative intensity and non-negative broadening coefficient, positive
    temperature, pressure and path length, a concentration in [0,1]; the
    molar mass the table yields is always positive),
    [calculate_absorption_spectrum] returns arrays whose every element
    satisfies absorption_coefficient >= 0, 0 <= transmittance <= 1 and
    absorbance >= 0, the Faddeeva function having a non-negative real part
    on the upper half-plane. *)
Theorem spectrum_bounds
    (lines : list line) (frequency_grid : list R)
    (temperature pressure concentration path_length : R) (molecule : string) :
  nonneg_on_upper_half_plane wofz ->
  Forall valid_line lines ->
  0 < temperature -> 0 < pressure -> 0 < path_length ->
  0 <= concentration <= 1 ->
  exists r,
    calculate_absorption_spectrum wofz lines frequency_grid temperature pressure
      concentration path_length molecule = Returned r /\
    Forall (fun a => 0 <= a) (absorption_coeff r) /\
    Forall (fun t => 0 <= t <= 1) (transmittance r) /\
    Forall (fun b => 0 <= b) (absorbance r).
Proof.
  intros Hw Hlines HT HP HL [Hc _].
  eexists. split; [apply absorption_spectrum_spec, HT |].
  assert (Hnonneg :
    Forall (Rle 0)
      (foldl (spec_accumulate wofz frequency_grid temperature pressure concentration
                (molecular_mass_of molecule))
         (replicate (length frequency_grid) 0) lines)).
  { apply spec_loop_nonneg; try assumption; try lra.
    - apply molecular_mass_of_pos.
    - apply Forall_replicate. lra. }
  simpl. split; [exact Hnonneg |]. split.
  - apply Forall_fmap. eapply Forall_impl; [exact Hnonneg |].
    intros a Ha. simpl. apply transmittance_bounds; lra.
  - rewrite <- list_fmap_compose. apply Forall_fmap.
    eapply Forall_impl; [exact Hnonneg |].
    intros a Ha. simpl. apply absorbance_nonneg; lra.
Qed.

(** C9. For every fixed line list, frequency grid and conditions
    (temperature > 0), the absorption coefficient returned by
    [calculate_absorption_spectrum] is homogeneous in the concentration:
    with the concentration scaled by any factor k, every element of the
    array is scaled by k. *)
Theorem absorption_linear_in_concentration
    (k : R) (lines : list line) (frequency_grid : list R)
    (temperature pressure concentration path_length : R) (molecule : string) :
  0 < temperature ->
  exists r rk,
    calculate_absorption_spectrum wofz lines frequency_grid temperature pressure
      concentration path_length molecule = Returned r /\
    calculate_absorption_spectrum wofz lines frequency_grid temperature pressure
      (k * concentration) path_length molecule = Returned rk /\
    absorption_coeff rk = (fun a => k * a) <$> absorption_coeff r.
Proof.
  intros HT. do 2 eexists.
  split; [apply absorption_spectrum_spec, HT |].
  split; [apply absorption_spectrum_spec, HT |].
  simpl. rewrite <- spec_loop_scale, fmap_replicate, Rmult_0_r. reflexivity.
Qed.

(** C10. For every molecule name that is not one of the 28 keys of the
    molar-mass table, [calculate_absorption_spectrum] does not raise
    (temperature > 0): it computes the whole spectrum with the default
    molecular mass 18.015 g/mol, the value of H2O, so that any two unknown
    names, and the name H2O, give one and the same result for the same line
    list, grid and conditions. *)
Theorem unknown_molecule_default_mass
    (lines : list line) (frequency_grid : list R)
    (temperature pressure concentration path_length : R)
    (molecule molecule' : string) :
  0 < temperature ->
  molecule ∉ dom molecular_masses ->
  molecule' ∉ dom molecular_masses ->
  size (dom molecular_masses) = 28%nat /\
  molecular_mass_of molecule = 18.015 /\
  molecular_masses !! "H2O" = Some 18.015 /\
  let r := spec_absorption_spectrum wofz lines frequency_grid temperature pressure
             concentration path_length 18.015 in
  calculate_absorption_spectrum wofz lines frequency_grid temperature pressure
    concentration path_length molecule = Returned r /\
  calculate_absorption_spectrum wofz lines frequency_grid temperature pressure
    concentration path_length molecule' = Returned r /\
  calculate_absorption_spectrum wofz lines frequency_grid temperature pressure
    concentration path_length "H2O" = Returned r.
Proof.
  intros HT Hm Hm'.
  split; [rewrite size_dom; apply molecular_masses_size |].
  split; [apply molecular_mass_of_unknown, Hm |].
  split; [reflexivity |].
  intros r. subst r.
  rewrite !absorption_spectrum_spec by assumption.
  rewrite (molecular_mass_of_unknown molecule), (molecular_mass_of_unknown molecule')
    by assumption.
  rewrite molecular_mass_of_H2O. auto.
Qed.

End SynthesizerProperties.

Lemma SF6_unknown : "SF6" ∉ dom molecular_masses.
Proof. apply not_elem_of_dom. reflexivity. Qed.

Lemma H2S_unknown : "H2S" ∉ dom molecular_masses.
Proof. apply not_elem_of_dom. reflexivity. Qed.

Lemma sample_line_valid : Forall valid_line [Line 6648.88 1e-20 0.05].
Proof. repeat constructor; simpl; lra. Qed.

Lemma zero_line_identity_witness :
  0 < 296.15 /\
  Forall (fun ln => nu ln <> 0) [Line 6648.88 1e-20 0.05] /\
  let identity := Spectrum [6648; 6648.88; 6650] [0; 0; 0] [1; 1; 1] [0; 0; 0] in
  calculate_absorption_spectrum gaussian_kernel [] [6648; 6648.88; 6650] 296.15 1
    1e-3 1000 "H2O" = Returned identity /\
  calculate_absorption_spectrum gaussian_kernel [Line 6648.88 1e-20 0.05]
    [6648; 6648.88; 6650] 296.15 1 0 1000 "H2O" = Returned identity.
Proof.
  split; [lra |].
  split; [repeat constructor; simpl; lra |].
  apply (zero_line_identity gaussian_kernel [Line 6648.88 1e-20 0.05]
           [6648; 6648.88; 6650] 296.15 1 1e-3 1000 "H2O").
  - lra.
  - repeat constructor; simpl; lra.
Defined.

Lemma spectrum_bounds_witness :
  nonneg_on_upper_half_plane gaussian_kernel /\
  Forall valid_line [Line 6648.88 1e-20 0.05] /\
  0 < 296.15 /\ 0 < 1 /\ 0 < 1000 /\ 0 <= 1e-3 <= 1 /\
  exists r,
    calculate_absorption_spectrum gaussian_kernel [Line 6648.88 1e-20 0.05]
      [6648; 6648.88; 6650] 296.15 1 1e-3 1000 "H2O" = Returned r /\
    Forall (fun a => 0 <= a) (absorption_coeff r) /\
    Forall (fun t => 0 <= t <= 1) (transmittance r) /\
    Forall (fun b => 0 <= b) (absorbance r).
Proof.
  split; [apply gaussian_kernel_nonneg |].
  split; [apply sample_line_valid |].
  repeat (split; [lra |]).
  apply (spectrum_bounds gaussian_kernel [Line 6648.88 1e-20 0.05]
           [6648; 6648.88; 6650] 296.15 1 1e-3 1000 "H2O").
  - apply gaussian_kernel_nonneg.
  - apply sample_line_valid.
  - lra.
  - lra.
  - lra.
  - lra.
Defined.

Lemma absorption_linear_in_concentration_witness :
  0 < 296.15 /\
  exists r rk,
    calculate_absorption_spectrum gaussian_kernel [Line 6648.88 1e-20 0.05]
      [6648; 6648.88; 6650] 296.15 1 1e-3 1000 "H2O" = Returned r /\
    calculate_absorption_spectrum gaussian_kernel [Line 6648.88 1e-20 0.05]
      [6648; 6648.88; 6650] 296.15 1 (/ 2 * 1e-3) 1000 "H2O" = Returned rk /\
    absorption_coeff rk = (fun a => / 2 * a) <$> absorption_coeff r.
Proof.
  split; [lra |].
  apply (absorption_linear_in_concentration gaussian_kernel (/ 2)
           [Line 6648.88 1e-20 0.05] [6648; 6648.88; 6650] 296.15 1 1e-3 1000 "H2O").
  lra.
Defined.

Lemma unknown_molecule_default_mass_witness :
  0 < 296.15 /\
  ("SF6" ∉ dom molecular_masses) /\
  ("H2S" ∉ dom molecular_masses) /\
  size (dom molecular_masses) = 28%nat /\
  molecular_mass_of "SF6" = 18.015 /\
  molecular_masses !! "H2O" = Some 18.015 /\
  let r := spec_absorption_spectrum gaussian_kernel [Line 6648.88 1e-20 0.05]
             [6648; 6648.88; 6650] 296.15 1 1e-3 1000 18.015 in
  calculate_absorption_spectrum gaussian_kernel [Line 6648.88 1e-20 0.05]
    [6648; 6648.88; 6650] 296.15 1 1e-3 1000 "SF6" = Returned r /\
  calculate_absorption_spectrum gaussian_kernel [Line 6648.88 1e-20 0.05]
    [6648; 6648.88; 6650] 296.15 1 1e-3 1000 "H2S" = Returned r /\
  calculate_absorption_spectrum gaussian_kernel [Line 6648.88 1e-20 0.05]
    [6648; 6648.88; 6650] 296.15 1 1e-3 1000 "H2O" = Returned r.
Proof.
  split; [lra |].
  split; [apply SF6_unknown |].
  split; [apply H2S_unknown |].
  apply (unknown_molecule_default_mass gaussian_kernel [Line 6648.88 1e-20 0.05]
           [6648; 6648.88; 6650] 296.15 1 1e-3 1000 "SF6" "H2S").
  - lra.
  - apply SF6_unknown.
  - apply H2S_unknown.
Defined.

(** * Properties of the code around the calculator *)

(** ** Atmosphere models *)

Lemma float_power_pos (x y : R) : 0 < float_power x y.
Proof. unfold float_power, Rpower. apply exp_pos. Qed.

Lemma density_pos (P T : R) : 0 < P -> 0 < T -> 0 < P / (287.0 * T).
Proof. intros HP HT. apply Rdiv_lt_0_compat; [assumption | lra]. Qed.

Ltac atmosphere_cases :=
  unfold us_standard_atmosphere; simpl;
  repeat (case_decide; simpl).

Lemma standard_temperature_bounds (altitude_km : R) :
  0 <= altitude_km <= 51 ->
  216.65 <= (us_standard_atmosphere altitude_km).1.1 <= 288.15.
Proof. intros Ha. atmosphere_cases; lra. Qed.

Lemma standard_pressure_pos (altitude_km : R) :
  0 < (us_standard_atmosphere altitude_km).1.2.
Proof.
  atmosphere_cases;
    (apply Rmult_lt_0_compat; [lra | apply float_power_pos || apply exp_pos]).
Qed.

Lemma standard_density (altitude_km : R) :
  (us_standard_atmosphere altitude_km).2
  = (us_standard_atmosphere altitude_km).1.2
    / (287.0 * (us_standard_atmosphere altitude_km).1.1).
Proof. atmosphere_cases; reflexivity. Qed.

(** X1. Between sea level and 51 km the US Standard Atmosphere model yields
    a temperature between 216.6 K and 288.2 K, a positive pressure and a
    positive density. (The layer formulas meet 216.65 K and 288.15 K exactly
    over the reals; the bounds stated leave room for the rounding of the
    floating-point evaluation, which gives 216.64999999999998 at 11 km.) *)
Theorem standard_atmosphere_range (altitude_km : R) :
  0 <= altitude_km <= 51 ->
  216.6 <= (us_standard_atmosphere altitude_km).1.1 <= 288.2 /\
  0 < (us_standard_atmosphere altitude_km).1.2 /\
  0 < (us_standard_atmosphere altitude_km).2.
Proof.
  intros Ha. pose proof (standard_temperature_bounds altitude_km Ha) as HT.
  pose proof (standard_pressure_pos altitude_km) as HP.
  split; [lra |]. split; [exact HP |].
  rewrite standard_density. apply density_pos; [exact HP | lra].
Qed.

Lemma standard_atmosphere_range_witness :
  0 <= 20 <= 51 /\
  216.6 <= (us_standard_atmosphere 20).1.1 <= 288.2 /\
  0 < (us_standard_atmosphere 20).1.2 /\
  0 < (us_standard_atmosphere 20).2.
Proof. split; [lra |]. apply (standard_atmosphere_range 20). lra. Defined.

(** X2. The temperature of the US Standard Atmosphere model has no jump
    between its layers: for two altitudes between sea level and 100 km, over
    all six layers and their boundaries, the temperatures differ by at most
    6.5 K per km of height difference, up to a margin of 1e-6 K. (Over the
    reals the margin is not needed; it leaves room for the rounding of the
    floating-point evaluation.) *)
Theorem standard_temperature_lapse (a b : R) :
  0 <= a <= 100 -> 0 <= b <= 100 ->
  Rabs ((us_standard_atmosphere a).1.1 - (us_standard_atmosphere b).1.1)
  <= 6.5 * Rabs (a - b) + 1e-6.
Proof.
  intros Ha Hb. unfold Rabs.
  destruct (Rcase_abs (a - b));
    atmosphere_cases;
    match goal with |- context [Rcase_abs ?x] => destruct (Rcase_abs x) end;
    lra.
Qed.

Lemma standard_temperature_lapse_witness :
  0 <= 10.5 <= 100 /\ 0 <= 52 <= 100 /\
  Rabs ((us_standard_atmosphere 10.5).1.1 - (us_standard_atmosphere 52).1.1)
  <= 6.5 * Rabs (10.5 - 52) + 1e-6.
Proof.
  split; [lra |]. split; [lra |].
  apply (standard_temperature_lapse 10.5 52); lra.
Defined.

Lemma tropical_unfold (altitude_km : R) :
  tropical_atmosphere altitude_km
  = let T_std := (us_standard_atmosphere altitude_km).1.1 in
    let P_std := (us_standard_atmosphere altitude_km).1.2 in
    if decide (altitude_km <= 10)
    then (T_std + 5, P_std * 1.05, P_std * 1.05 / (287.0 * (T_std + 5)))
    else (T_std + 2, P_std * 0.98, P_std * 0.98 / (287.0 * (T_std + 2))).
Proof.
  unfold tropical_atmosphere.
  destruct (us_standard_atmosphere altitude_km) as [[T P] rho]. simpl.
  case_decide; reflexivity.
Qed.

Lemma polar_unfold (altitude_km : R) :
  polar_atmosphere altitude_km
  = let T_std := (us_standard_atmosphere altitude_km).1.1 in
    let P_std := (us_standard_atmosphere altitude_km).1.2 in
    if decide (altitude_km <= 10)
    then (T_std - 20, P_std * 0.95, P_std * 0.95 / (287.0 * (T_std - 20)))
    else (T_std - 10, P_std * 0.92, P_std * 0.92 / (287.0 * (T_std - 10))).
Proof.
  unfold polar_atmosphere.
  destruct (us_standard_atmosphere altitude_km) as [[T P] rho]. simpl.
  case_decide; reflexivity.
Qed.

Lemma standard_temperature_troposphere (altitude_km : R) :
  0 <= altitude_km <= 10 ->
  223.15 <= (us_standard_atmosphere altitude_km).1.1.
Proof. intros Ha. atmosphere_cases; lra. Qed.

(** X3. Between sea level and 51 km the polar model is colder and the
    tropical model warmer than the standard one; the polar temperature stays
    above 203.1 K and the tropical one below 293.2 K, and both models yield
    a positive pressure and a positive density. (Over the reals the extreme
    temperatures are 203.15 K and 293.15 K; the bounds stated leave room for
    the rounding of the floating-point evaluation.) *)
Theorem regional_atmosphere_range (altitude_km : R) :
  0 <= altitude_km <= 51 ->
  let T_std := (us_standard_atmosphere altitude_km).1.1 in
  let polar := polar_atmosphere altitude_km in
  let tropical := tropical_atmosphere altitude_km in
  203.1 <= polar.1.1 /\ polar.1.1 < T_std /\
  T_std < tropical.1.1 /\ tropical.1.1 <= 293.2 /\
  0 < polar.1.2 /\ 0 < polar.2 /\ 0 < tropical.1.2 /\ 0 < tropical.2.
Proof.
  intros Ha T_std polar tropical. subst T_std polar tropical.
  rewrite polar_unfold, tropical_unfold. simpl.
  pose proof (standard_temperature_bounds altitude_km Ha) as HT.
  pose proof (standard_pressure_pos altitude_km) as HP.
  case_decide as H10; simpl.
  - pose proof (standard_temperature_troposphere altitude_km ltac:(lra)) as HT10.
    repeat split; try lra;
      try (apply density_pos; [| lra]);
      apply Rmult_lt_0_compat; lra.
  - repeat split; try lra;
      try (apply density_pos; [| lra]);
      apply Rmult_lt_0_compat; lra.
Qed.

Lemma regional_atmosphere_range_witness :
  0 <= 5 <= 51 /\
  let T_std := (us_standard_atmosphere 5).1.1 in
  let polar := polar_atmosphere 5 in
  let tropical := tropical_atmosphere 5 in
  203.1 <= polar.1.1 /\ polar.1.1 < T_std /\
  T_std < tropical.1.1 /\ tropical.1.1 <= 293.2 /\
  0 < polar.1.2 /\ 0 < polar.2 /\ 0 < tropical.1.2 /\ 0 < tropical.2.
Proof. split; [lra |]. apply (regional_atmosphere_range 5). lra. Defined.

(** ** The downloader *)

Lemma molecule_ids_dom : dom molecule_ids = dom molecular_masses.
Proof. vm_compute. reflexivity. Qed.



(** X6. The downloader and the calculator know the same molecules: a name
    has a HITRAN number in the downloader's table exactly when it has a
    molar mass in the calculator's table, so that the spectrum of downloaded
    lines is never computed with the default mass of an unknown name. *)
Theorem downloadable_molecules_have_mass (molecule : string) :
  (is_Some (molecule_ids !! molecule) <-> is_Some (molecular_masses !! molecule)) /\
  (is_Some (molecule_ids !! molecule) ->
   molecular_masses !! molecule = Some (molecular_mass_of molecule)).
Proof.
  assert (Hiff : is_Some (molecule_ids !! molecule)
                 <-> is_Some (molecular_masses !! molecule)).
  { rewrite <- !elem_of_dom, molecule_ids_dom. reflexivity. }
  split; [exact Hiff |].
  intros Hid. apply Hiff in Hid. destruct Hid as [m Hm].
  rewrite (molecular_mass_of_known molecule m Hm). exact Hm.
Qed.

Lemma downloadable_molecules_have_mass_witness :
  is_Some (molecule_ids !! "OCS") /\
  molecular_masses !! "OCS" = Some (molecular_mass_of "OCS").
Proof.
  assert (H : is_Some (molecule_ids !! "OCS")) by (eexists; reflexivity).
  split; [exact H |].
  apply (downloadable_molecules_have_mass "OCS"). exact H.
Defined.

(** ** The simplified spectrum of [app.py] *)

Lemma masked_sum_all_false (values : list R) (mask : list bool) :
  App.np_any mask = false -> App.masked_sum values mask = 0.
Proof.
  unfold App.np_any, App.masked_sum. revert values.
  induction mask as [| b mask IH]; intros values Hany.
  - destruct values; reflexivity.
  - simpl in Hany. apply orb_false_iff in Hany as [-> Hmask].
    destruct values as [| v values]; simpl; [reflexivity |].
    rewrite IH by assumption. lra.
Qed.

Lemma masked_sum_near (rows : list line) (wl : R) :
  App.masked_sum (sw <$> rows)
    ((fun lc => bool_decide (Rabs (lc - wl) < 0.1))
       <$> ((fun ln => 1e7 / nu ln) <$> rows))
  = strength_near rows wl.
Proof.
  unfold App.masked_sum, strength_near.
  induction rows as [| ln rows IH]; csimpl; [reflexivity |].
  rewrite filter_cons. rewrite IH.
  destruct (decide (Rabs (1e7 / nu ln - wl) < 0.1)) as [Hnear | Hfar].
  - rewrite bool_decide_true by assumption. reflexivity.
  - rewrite bool_decide_false by assumption. csimpl. lra.
Qed.

Lemma lorentzian_factor_one (strength path_length wl line_width : R) :
  strength * path_length / (1 + ((wl - wl) / line_width) ^ 2)
  = strength * path_length.
Proof.
  replace (wl - wl) with 0 by ring.
  unfold Rdiv at 2. rewrite Rmult_0_l. simpl.
  rewrite Rmult_0_l, Rplus_0_r. unfold Rdiv. rewrite Rinv_1. ring.
Qed.

Lemma each_wavelength_spec (rows : list line) (path_length : R)
    (wavelength pre : list R) :
  App.each_wavelength rows path_length (length pre) wavelength
    (pre ++ replicate (length wavelength) 0)
  = pre ++ ((fun wl => strength_near rows wl * path_length) <$> wavelength).
Proof.
  revert pre. induction wavelength as [| wl rest IH]; intros pre.
  - reflexivity.
  - cbn [App.each_wavelength length replicate].
    rewrite masked_sum_near, lorentzian_factor_one.
    replace (if App.np_any _ then _ else _)
      with ((pre ++ [strength_near rows wl * path_length])
              ++ replicate (length rest) 0).
    + replace (S (length pre))
        with (length (pre ++ [strength_near rows wl * path_length]))
        by (rewrite length_app; simpl; lia).
      rewrite IH, <- app_assoc. reflexivity.
    + destruct (App.np_any _) eqn:Hany.
      * rewrite insert_app_r_alt by reflexivity.
        rewrite Nat.sub_diag, <- app_assoc. reflexivity.
      * rewrite <- masked_sum_near.
        rewrite (masked_sum_all_false _ _ Hany), Rmult_0_l, <- app_assoc.
        reflexivity.
Qed.

(** X8. For a non-empty table of lines with non-zero center frequency, the
    simplified [calculate_absorption_spectrum] of app.py returns, at every
    wavelength, the path length times the summed intensity of the lines
    whose center 1e7 / nu lies within 0.1 nm of that wavelength: the
    Lorentzian factor of the code is identically 1, and temperature and
    pressure have no influence on the result. *)
Theorem simple_spectrum_window
    (rows : list line) (wavelength : list R)
    (temperature pressure path_length : R) :
  rows <> [] ->
  Forall (fun ln => nu ln <> 0) rows ->
  App.calculate_absorption_spectrum (Some rows) wavelength temperature pressure
    path_length
  = (fun wl => strength_near rows wl * path_length) <$> wavelength.
Proof.
  intros Hrows _. unfold App.calculate_absorption_spectrum.
  destruct rows as [| ln rows]; [contradiction |]. simpl decide.
  case_decide as Hlen; [discriminate |].
  apply (each_wavelength_spec (ln :: rows) path_length wavelength []).
Qed.

Lemma simple_spectrum_window_witness :
  [Line 6648.88 1e-20 0.05] <> [] /\
  Forall (fun ln => nu ln <> 0) [Line 6648.88 1e-20 0.05] /\
  App.calculate_absorption_spectrum (Some [Line 6648.88 1e-20 0.05])
    [1500; 1504; 1520] 296 1013.25 1
  = (fun wl => strength_near [Line 6648.88 1e-20 0.05] wl * 1) <$> [1500; 1504; 1520].
Proof.
  split; [discriminate |].
  split; [repeat constructor; simpl; lra |].
  apply (simple_spectrum_window [Line 6648.88 1e-20 0.05] [1500; 1504; 1520]
           296 1013.25 1).
  - discriminate.
  - repeat constructor; simpl; lra.
Defined.

(** ** The preset store *)

(** X9. For a preset file that is absent, that holds a text which is not
    JSON, or that holds a dict of presets: after [add_preset] the store
    returns, for the added id, the preset data with its creation date set,
    and for every other id what it returned before. *)
Theorem add_preset_then_get
    (now preset_id other_id : string) (preset_data : gmap string json)
    (file : preset_file) :
  other_id <> preset_id ->
  get_preset preset_id (add_preset now preset_id preset_data file)
  = Some (<["created_date" := JString now]> preset_data) /\
  get_preset other_id (add_preset now preset_id preset_data file)
  = get_preset other_id file.
Proof.
  intros Hne. unfold get_preset, add_preset, save_presets. simpl. split.
  - apply lookup_insert_eq.
  - apply lookup_insert_ne. congruence.
Qed.

Lemma add_preset_then_get_witness :
  "b" <> "a" /\
  get_preset "a" (add_preset "2024-01-01 00:00:00" "a"
                    {[ "category" := JString "CRDS" ]} FileMissing)
  = Some (<["created_date" := JString "2024-01-01 00:00:00"]>
            {[ "category" := JString "CRDS" ]}) /\
  get_preset "b" (add_preset "2024-01-01 00:00:00" "a"
                    {[ "category" := JString "CRDS" ]} FileMissing)
  = get_preset "b" FileMissing.
Proof.
  split; [discriminate |].
  apply (add_preset_then_get "2024-01-01 00:00:00" "a" "b"
           {[ "category" := JString "CRDS" ]} FileMissing).
  discriminate.
Defined.

(** X10. [delete_preset] answers True exactly when the id was stored; it
    then removes the id and nothing else.  When it answers False the file is
    left as it was, not rewritten. *)
Theorem delete_preset_effect (preset_id other_id : string) (file : preset_file) :
  other_id <> preset_id ->
  let result := delete_preset preset_id file in
  (result.1 = true <-> is_Some (get_preset preset_id file)) /\
  get_preset preset_id result.2 = None /\
  get_preset other_id result.2 = get_preset other_id file /\
  (result.1 = false -> result.2 = file).
Proof.
  intros Hne result. subst result. unfold delete_preset, get_preset.
  case_decide as Hin; simpl.
  - split; [tauto |]. split; [apply lookup_delete_eq |].
    split; [apply lookup_delete_ne; congruence | discriminate].
  - split; [split; [discriminate | contradiction] |].
    split; [| split; reflexivity].
    destruct (load_presets file !! preset_id) eqn:Hlook; [| reflexivity].
    exfalso. apply Hin. eexists. reflexivity.
Qed.

Lemma delete_preset_effect_witness :
  "b" <> "a" /\
  let result := delete_preset "a" (FileStored {[ "a" := ∅ ; "b" := ∅ ]}) in
  (result.1 = true
   <-> is_Some (get_preset "a" (FileStored {[ "a" := ∅ ; "b" := ∅ ]}))) /\
  get_preset "a" result.2 = None /\
  get_preset "b" result.2 = get_preset "b" (FileStored {[ "a" := ∅ ; "b" := ∅ ]}) /\
  (result.1 = false -> result.2 = FileStored {[ "a" := ∅ ; "b" := ∅ ]}).
Proof.
  split; [discriminate |].
  apply (delete_preset_effect "a" "b" (FileStored {[ "a" := ∅ ; "b" := ∅ ]})).
  discriminate.
Defined.

(** X11. A preset file that is absent, or that holds a UTF-8 text which
    [json.load] rejects with [json.JSONDecodeError], reads as an empty store:
    no preset is found, no category has members and nothing can be deleted;
    the next [add_preset] replaces the file by a store holding the added
    preset alone. *)
Theorem unreadable_preset_file
    (now preset_id : string) (category : option string)
    (preset_data : gmap string json) (file : preset_file) :
  file = FileMissing \/ file = FileInvalid ->
  get_preset preset_id file = None /\
  get_presets_by_category category file = ∅ /\
  delete_preset preset_id file = (false, file) /\
  add_preset now preset_id preset_data file
  = FileStored {[ preset_id := <["created_date" := JString now]> preset_data ]}.
Proof.
  intros [-> | ->]; unfold get_preset, get_presets_by_category, delete_preset,
    add_preset, save_presets; simpl.
  all: split; [apply lookup_empty |].
  all: split; [destruct category as [c |]; [case_bool_decide |];
               try reflexivity; apply map_filter_empty |].
  all: split; [| rewrite insert_empty; reflexivity].
  all: case_decide as Hin; [| reflexivity].
  all: rewrite lookup_empty in Hin; destruct Hin as [? Hin]; discriminate.
Qed.

Lemma unreadable_preset_file_witness :
  (FileInvalid = FileMissing \/ FileInvalid = FileInvalid) /\
  get_preset "a" FileInvalid = None /\
  get_presets_by_category (Some "CRDS") FileInvalid = ∅ /\
  delete_preset "a" FileInvalid = (false, FileInvalid) /\
  add_preset "2024-01-01 00:00:00" "a" ∅ FileInvalid
  = FileStored {[ "a" := <["created_date" := JString "2024-01-01 00:00:00"]> ∅ ]}.
Proof.
  split; [right; reflexivity |].
  apply (unreadable_preset_file "2024-01-01 00:00:00" "a" (Some "CRDS") ∅ FileInvalid).
  right. reflexivity.
Defined.

(** X12. [get_presets_by_category] returns, for a non-empty category name,
    exactly the stored presets whose 'category' entry is that string; for
    the empty string, as for None, it returns every stored preset,
    whatever its category. *)
Theorem presets_by_category
    (category preset_id : string) (preset : gmap string json) (file : preset_file) :
  category <> "" ->
  (get_presets_by_category (Some category) file !! preset_id = Some preset
   <-> get_preset preset_id file = Some preset /\
       preset !! "category" = Some (JString category)) /\
  get_presets_by_category (Some "") file = load_presets file /\
  get_presets_by_category None file = load_presets file.
Proof.
  intros Hne. unfold get_presets_by_category, get_preset.
  rewrite bool_decide_false by assumption.
  split; [| split; reflexivity].
  rewrite map_lookup_filter_Some. simpl. unfold has_category.
  split; intros [Hlook Hcat]; (split; [exact Hlook |]).
  - destruct (preset !! "category") as [[ | | | s | | ] |]; try discriminate.
    apply bool_decide_eq_true in Hcat. subst s. reflexivity.
  - rewrite Hcat. apply bool_decide_eq_true. reflexivity.
Qed.

Lemma presets_by_category_witness :
  "CRDS" <> "" /\
  (get_presets_by_category (Some "CRDS")
     (FileStored {[ "a" := {[ "category" := JString "CRDS" ]} ]}) !! "a"
   = Some {[ "category" := JString "CRDS" ]}
   <-> get_preset "a" (FileStored {[ "a" := {[ "category" := JString "CRDS" ]} ]})
       = Some {[ "category" := JString "CRDS" ]} /\
       ({[ "category" := JString "CRDS" ]} : gmap string json) !! "category"
       = Some (JString "CRDS")) /\
  get_presets_by_category (Some "")
    (FileStored {[ "a" := {[ "category" := JString "CRDS" ]} ]})
  = load_presets (FileStored {[ "a" := {[ "category" := JString "CRDS" ]} ]}) /\
  get_presets_by_category None
    (FileStored {[ "a" := {[ "category" := JString "CRDS" ]} ]})
  = load_presets (FileStored {[ "a" := {[ "category" := JString "CRDS" ]} ]}).
Proof.
  split; [discriminate |].
  apply (presets_by_category "CRDS" "a" {[ "category" := JString "CRDS" ]}
           (FileStored {[ "a" := {[ "category" := JString "CRDS" ]} ]})).
  discriminate.
Defined.

(** ** Noise generators *)

Lemma sin_abs_le_1 (x : R) : Rabs (sin x) <= 1.
Proof. apply Rabs_le. pose proof (SIN_bound x). lra. Qed.

Lemma broadcast_add_same_length (a b : list R) :
  length a = length b -> broadcast_add a b = Some (zip_with Rplus a b).
Proof. intros H. unfold broadcast_add. case_decide; [reflexivity | contradiction]. Qed.

(** X13. For a spectrum and a wavelength array of one length, the
    wavelengths not all equal, [add_baseline_drift] returns the spectrum plus
    a drift whose magnitude never exceeds the drift amplitude; the drift is 0
    at the smallest wavelength.  On an empty wavelength array it raises. *)
Theorem baseline_drift_bounded
    (spectrum wavelength : list R) (drift_amplitude drift_frequency lo hi : R) :
  array_min wavelength = Some lo ->
  array_max wavelength = Some hi ->
  lo < hi ->
  length spectrum = length wavelength ->
  (exists noisy baseline,
     add_baseline_drift spectrum wavelength drift_amplitude drift_frequency
     = Some (noisy, baseline) /\
     noisy = zip_with Rplus spectrum baseline /\
     length baseline = length wavelength /\
     Forall (fun b => Rabs b <= Rabs drift_amplitude) baseline /\
     (forall k : nat, wavelength !! k = Some lo -> baseline !! k = Some 0)) /\
  add_baseline_drift spectrum [] drift_amplitude drift_frequency = None.
Proof.
  intros Hlo Hhi Hlt Hlen. split; [| reflexivity].
  unfold add_baseline_drift. rewrite Hlo, Hhi. simpl.
  rewrite broadcast_add_same_length by (rewrite length_fmap; exact Hlen). simpl.
  do 2 eexists. split; [reflexivity |]. split; [reflexivity |].
  split; [apply length_fmap |]. split.
  - apply Forall_fmap, Forall_forall. intros wl _. simpl.
    rewrite Rabs_mult. rewrite <- (Rmult_1_r (Rabs drift_amplitude)) at 2.
    apply Rmult_le_compat_l; [apply Rabs_pos | apply sin_abs_le_1].
  - intros k Hk. rewrite list_lookup_fmap, Hk. simpl. f_equal.
    replace (2 * PI * drift_frequency * (lo - lo) / (hi - lo)) with 0
      by (field; lra).
    rewrite sin_0. ring.
Qed.

Lemma sample_wavelength_min : array_min [1500; 1510; 1520] = Some 1500.
Proof.
  simpl. f_equal. unfold Rmin.
  repeat (destruct (Rle_dec _ _)); lra.
Qed.

Lemma sample_wavelength_max : array_max [1500; 1510; 1520] = Some 1520.
Proof.
  simpl. f_equal. unfold Rmax.
  repeat (destruct (Rle_dec _ _)); lra.
Qed.

Lemma baseline_drift_bounded_witness :
  array_min [1500; 1510; 1520] = Some 1500 /\
  array_max [1500; 1510; 1520] = Some 1520 /\
  1500 < 1520 /\
  length [0.1; 0.2; 0.1] = length [1500; 1510; 1520] /\
  (exists noisy baseline,
     add_baseline_drift [0.1; 0.2; 0.1] [1500; 1510; 1520] 0.01 1
     = Some (noisy, baseline) /\
     noisy = zip_with Rplus [0.1; 0.2; 0.1] baseline /\
     length baseline = length [1500; 1510; 1520] /\
     Forall (fun b => Rabs b <= Rabs 0.01) baseline /\
     (forall k : nat, [1500; 1510; 1520] !! k = Some 1500 -> baseline !! k = Some 0)) /\
  add_baseline_drift [0.1; 0.2; 0.1] [] 0.01 1 = None.
Proof.
  split; [apply sample_wavelength_min |].
  split; [apply sample_wavelength_max |].
  split; [lra |]. split; [reflexivity |].
  apply (baseline_drift_bounded [0.1; 0.2; 0.1] [1500; 1510; 1520] 0.01 1 1500 1520).
  - apply sample_wavelength_min.
  - apply sample_wavelength_max.
  - lra.
  - reflexivity.
Defined.

Lemma place_spike_step (spectrum spikes : list R) (pos : nat) (val : R) :
  spikes !! pos = Some 0 ->
  alter (fun v => v + val) pos (zip_with Rplus spectrum spikes)
  = zip_with Rplus spectrum (<[pos := val]> spikes).
Proof.
  intros Hzero. apply list_eq. intros k.
  destruct (decide (k = pos)) as [-> | Hne].
  - rewrite list_lookup_alter_eq, !lookup_zip_with, Hzero.
    rewrite list_lookup_insert_eq by (eapply lookup_lt_Some, Hzero).
    destruct (spectrum !! pos) as [s |]; simpl; [| reflexivity].
    f_equal. ring.
  - rewrite list_lookup_alter_ne by congruence.
    rewrite !lookup_zip_with.
    rewrite list_lookup_insert_ne by congruence. reflexivity.
Qed.

Lemma place_spikes_distinct
    (spectrum : list R) (spikes_at : list (nat * R)) (spikes : list R) :
  NoDup spikes_at.*1 ->
  Forall (fun p : nat * R => spikes !! p.1 = Some 0) spikes_at ->
  length spikes = length spectrum ->
  let result := place_spikes spikes_at (zip_with Rplus spectrum spikes) spikes in
  result.1 = zip_with Rplus spectrum result.2 /\
  length result.2 = length spectrum.
Proof.
  revert spikes.
  induction spikes_at as [| [pos val] rest IH]; intros spikes Hnodup Hzero Hlen.
  - simpl. auto.
  - cbn [place_spikes]. inversion Hzero as [| ? ? Hpos Hrest]; subst.
    simpl in Hpos. rewrite fmap_cons in Hnodup.
    apply NoDup_cons in Hnodup as [Hfresh Hnodup].
    rewrite (place_spike_step spectrum spikes pos val Hpos).
    apply IH.
    + exact Hnodup.
    + rewrite Forall_forall in Hrest. apply Forall_forall.
      intros [p v] Hin. simpl.
      rewrite list_lookup_insert_ne; [apply (Hrest (p, v) Hin) |].
      intros ->. apply Hfresh.
      apply list_elem_of_fmap. exists (p, v). auto.
    + rewrite length_insert. exact Hlen.
Qed.

(** X14. When the drawn spike positions are pairwise distinct, [add_spikes]
    returns the spectrum plus the returned spike array, both of the
    spectrum's length. *)
Theorem spikes_at_distinct_positions
    (spectrum : list R) (spike_positions : list nat) (spike_values : list R) :
  spectrum <> [] ->
  NoDup spike_positions ->
  Forall (fun pos => (pos < length spectrum)%nat) spike_positions ->
  length spike_positions = length spike_values ->
  exists noisy_spectrum spikes,
    add_spikes spectrum spike_positions spike_values = Some (noisy_spectrum, spikes) /\
    noisy_spectrum = zip_with Rplus spectrum spikes /\
    length noisy_spectrum = length spectrum /\
    length spikes = length spectrum.
Proof.
  intros Hne Hnodup Hrange Hlen.
  assert (Hadd : add_spikes spectrum spike_positions spike_values
                 = Some (place_spikes (zip spike_positions spike_values) spectrum
                           (zeros_like spectrum))).
  { unfold add_spikes. destruct spectrum; [contradiction | reflexivity]. }
  rewrite Hadd. clear Hadd.
  pose proof (place_spikes_distinct spectrum (zip spike_positions spike_values)
                (zeros_like spectrum)) as Hinv.
  assert (Hstart : zip_with Rplus spectrum (zeros_like spectrum) = spectrum).
  { unfold zeros_like. clear. induction spectrum as [| s rest IH]; simpl.
    - reflexivity.
    - rewrite IH. f_equal. ring. }
  rewrite Hstart in Hinv.
  destruct Hinv as [Hsum Hlength].
  - rewrite fst_zip by lia. exact Hnodup.
  - apply Forall_forall. intros [p v] Hin. simpl.
    unfold zeros_like. apply lookup_replicate_2.
    rewrite Forall_forall in Hrange. apply Hrange.
    apply elem_of_zip_l in Hin. exact Hin.
  - unfold zeros_like. apply length_replicate.
  - destruct (place_spikes _ _ _) as [noisy spikes]. simpl in *.
    exists noisy, spikes. split; [reflexivity |]. split; [exact Hsum |].
    split; [| exact Hlength].
    rewrite Hsum, length_zip_with, Hlength. apply Nat.min_id.
Qed.

Lemma spikes_at_distinct_positions_witness :
  [0.1; 0.2; 0.1] <> [] /\
  NoDup [2%nat; 0%nat] /\
  Forall (fun pos => (pos < length [0.1%R; 0.2%R; 0.1%R])%nat) [2%nat; 0%nat] /\
  length [2%nat; 0%nat] = length [0.05; -0.02] /\
  exists noisy_spectrum spikes,
    add_spikes [0.1; 0.2; 0.1] [2%nat; 0%nat] [0.05; -0.02]
    = Some (noisy_spectrum, spikes) /\
    noisy_spectrum = zip_with Rplus [0.1; 0.2; 0.1] spikes /\
    length noisy_spectrum = length [0.1; 0.2; 0.1] /\
    length spikes = length [0.1; 0.2; 0.1].
Proof.
  assert (Hnodup : NoDup [2%nat; 0%nat]).
  { apply NoDup_cons_2; [| apply NoDup_singleton].
    intros Hin. apply list_elem_of_singleton in Hin. discriminate. }
  assert (Hrange : Forall (fun pos => (pos < length [0.1%R; 0.2%R; 0.1%R])%nat) [2%nat; 0%nat]).
  { repeat constructor; simpl; lia. }
  split; [discriminate |]. split; [exact Hnodup |]. split; [exact Hrange |].
  split; [reflexivity |].
  apply (spikes_at_distinct_positions [0.1; 0.2; 0.1] [2%nat; 0%nat] [0.05; -0.02]).
  - discriminate.
  - exact Hnodup.
  - exact Hrange.
  - reflexivity.
Defined.

(** ** The loops of the pages *)

Lemma values_at_cons (field : spectrum -> list R) (k : nat)
    (s : spectrum) (spectra : list spectrum) :
  values_at field k (s :: spectra)
  = default 0 (field s !! k) :: values_at field k spectra.
Proof. reflexivity. Qed.

Lemma values_at_app (field : spectrum -> list R) (k : nat)
    (spectra spectra' : list spectrum) :
  values_at field k (spectra ++ spectra')
  = values_at field k spectra ++ values_at field k spectra'.
Proof. unfold values_at. apply fmap_app. Qed.

Lemma beer_lambert_at (path_length : R) (n k : nat) (s : spectrum) :
  beer_lambert_spectrum path_length n s -> (k < n)%nat ->
  exists a,
    absorption_coeff s !! k = Some a /\
    transmittance s !! k = Some (exp (- (a * path_length))) /\
    absorbance s !! k = Some (a * path_length / ln 10).
Proof.
  intros (Hlen & Ht & Hb) Hk.
  destruct (lookup_lt_is_Some_2 (absorption_coeff s) k) as [a Ha]; [lia |].
  exists a. split; [exact Ha |].
  assert (Htk : transmittance s !! k = Some (exp (- (a * path_length)))).
  { rewrite Ht, list_lookup_fmap, Ha. reflexivity. }
  split; [exact Htk |].
  rewrite Hb, list_lookup_fmap, Htk. simpl.
  rewrite absorbance_of_transmittance. reflexivity.
Qed.

Lemma beer_lambert_composition (path_length : R) (n k : nat) (spectra : list spectrum) :
  Forall (beer_lambert_spectrum path_length n) spectra -> (k < n)%nat ->
  foldr Rmult 1 (values_at transmittance k spectra)
  = exp (- (foldr Rplus 0 (values_at absorption_coeff k spectra) * path_length)) /\
  foldr Rplus 0 (values_at absorbance k spectra)
  = foldr Rplus 0 (values_at absorption_coeff k spectra) * path_length / ln 10.
Proof.
  intros Hall Hk. induction Hall as [| s spectra Hs Hall [IHt IHb]].
  - simpl. split.
    + rewrite Rmult_0_l, Ropp_0, exp_0. reflexivity.
    + unfold Rdiv. ring.
  - destruct (beer_lambert_at path_length n k s Hs Hk) as (a & Ha & Ht & Hb).
    rewrite !values_at_cons, Ha, Ht, Hb. simpl. rewrite IHt, IHb. split.
    + rewrite <- exp_plus. f_equal. ring.
    + unfold Rdiv. ring.
Qed.

Lemma spec_spectrum_beer_lambert
    (wofz : complex -> complex) (lines : list line) (grid : list R)
    (temperature pressure concentration path_length mass : R) :
  beer_lambert_spectrum path_length (length grid)
    (spec_absorption_spectrum wofz lines grid temperature pressure concentration
       path_length mass).
Proof.
  split; [apply spec_spectrum_lengths |]. split; reflexivity.
Qed.

Lemma array_add_lookup (a b : list R) (k : nat) (x y : R) :
  a !! k = Some x -> b !! k = Some y -> array_add a b !! k = Some (x + y).
Proof.
  intros Ha Hb. unfold array_add. rewrite lookup_zip_with, Ha, Hb. reflexivity.
Qed.

Lemma array_add_length (a b : list R) (n : nat) :
  length a = n -> length b = n -> length (array_add a b) = n.
Proof.
  intros Ha Hb. unfold array_add. rewrite length_zip_with, Ha, Hb.
  apply Nat.min_id.
Qed.

Section PageLoops.

Variable wofz : complex -> complex.

Lemma layer_loop_inv
    (hitran_data : list line) (grid : list R) (molecule : string)
    (layers : list (R * R * R * R)) (layer_spectra : list spectrum)
    (total : list R) :
  Forall (fun l : R * R * R * R => 0 < l.1.1.2) layers ->
  length total = length grid ->
  exists new total',
    layer_loop wofz hitran_data grid molecule layers layer_spectra total
    = Some (layer_spectra ++ new, total') /\
    length new = length layers /\
    Forall (beer_lambert_spectrum layer_thickness (length grid)) new /\
    length total' = length grid /\
    forall (k : nat) (a0 : R),
      total !! k = Some a0 ->
      total' !! k
      = Some (a0 + foldr Rplus 0 (values_at absorption_coeff k new) * layer_thickness).
Proof.
  intros Hall. revert layer_spectra total.
  induction Hall as [| [[[alt T] P_hPa] conc] rest HT Hrest IH];
    intros layer_spectra total Hlen.
  - exists [], total. simpl. rewrite app_nil_r.
    repeat split; try assumption; try constructor.
    intros k a0 Hk. rewrite Hk. f_equal. ring.
  - simpl in HT. cbn [layer_loop].
    rewrite absorption_spectrum_spec by exact HT. cbn [caught mbind option_bind].
    set (s := spec_absorption_spectrum wofz hitran_data grid T (P_hPa / 760.0)
                (conc / 1e9) layer_thickness (molecular_mass_of molecule)).
    pose proof (spec_spectrum_beer_lambert wofz hitran_data grid T (P_hPa / 760.0)
                  (conc / 1e9) layer_thickness (molecular_mass_of molecule)) as Hs.
    fold s in Hs.
    assert (Hslen : length (absorption_coeff s) = length grid) by apply Hs.
    destruct (IH (layer_spectra ++ [s])
                (array_add total ((fun a => a * layer_thickness) <$> absorption_coeff s)))
      as (new & total' & Hloop & Hnew & Hbl & Hlen' & Hsum).
    { apply array_add_length; [exact Hlen |]. rewrite length_fmap. exact Hslen. }
    exists (s :: new), total'. split.
    { rewrite Hloop, <- app_assoc. reflexivity. }
    split; [simpl; lia |]. split; [constructor; assumption |].
    split; [exact Hlen' |].
    intros k a0 Hk.
    destruct (lookup_lt_is_Some_2 (absorption_coeff s) k) as [a Ha].
    { rewrite Hslen, <- Hlen. eapply lookup_lt_Some, Hk. }
    rewrite (Hsum k (a0 + a * layer_thickness)).
    + rewrite values_at_cons, Ha. simpl. f_equal. ring.
    + apply array_add_lookup; [exact Hk |].
      rewrite list_lookup_fmap, Ha. reflexivity.
Qed.

Lemma zip4_temperatures (altitudes temperatures pressures concentrations : list R) :
  Forall (fun T => 0 < T) temperatures ->
  Forall (fun l : R * R * R * R => 0 < l.1.1.2)
    (zip4 altitudes temperatures pressures concentrations).
Proof.
  intros HT. rewrite Forall_forall in HT. apply Forall_forall.
  intros [[[alt T] P] conc] Hin. simpl. apply HT. unfold zip4 in Hin.
  apply elem_of_zip_l, elem_of_zip_l, elem_of_zip_r in Hin. exact Hin.
Qed.

(** X15. For layer temperatures > 0, the layered-atmosphere computation of
    atmosphere_app.py returns one spectrum per layer, and in exact
    arithmetic its total transmittance is, at every grid point, the product
    of the transmittances of the layers and its total absorbance the sum of
    their absorbances.  (Exact arithmetic: real numbers, without rounding
    and without the underflow of [np.exp]; in binary64 an optical depth
    beyond about 745 gives the transmittance 0.0 and the absorbance [inf].) *)
Theorem atmosphere_layers_compose
    (hitran_data : list line) (frequency_grid : list R) (molecule : string)
    (altitudes temperatures pressures concentrations : list R) :
  Forall (fun T => 0 < T) temperatures ->
  exists layer_spectra total_transmittance total_absorbance,
    atmosphere_spectrum wofz hitran_data frequency_grid molecule
      altitudes temperatures pressures concentrations
    = Some (layer_spectra, total_transmittance, total_absorbance) /\
    length layer_spectra
    = length (zip4 altitudes temperatures pressures concentrations) /\
    length total_transmittance = length frequency_grid /\
    length total_absorbance = length frequency_grid /\
    forall k : nat, (k < length frequency_grid)%nat ->
      total_transmittance !! k
      = Some (foldr Rmult 1 (values_at transmittance k layer_spectra)) /\
      total_absorbance !! k
      = Some (foldr Rplus 0 (values_at absorbance k layer_spectra)).
Proof.
  intros HT. unfold atmosphere_spectrum.
  destruct (layer_loop_inv hitran_data frequency_grid molecule
              (zip4 altitudes temperatures pressures concentrations) []
              (zeros_like frequency_grid))
    as (new & total & Hloop & Hnew & Hbl & Hlen & Hsum).
  { apply zip4_temperatures, HT. }
  { apply length_replicate. }
  rewrite Hloop. simpl. do 3 eexists. split; [reflexivity |].
  split; [exact Hnew |].
  split; [rewrite length_fmap; exact Hlen |].
  split; [rewrite !length_fmap; exact Hlen |].
  intros k Hk.
  pose proof (Hsum k 0 (lookup_replicate_2 _ _ _ Hk)) as Htotal.
  destruct (beer_lambert_composition layer_thickness (length frequency_grid) k new
              Hbl Hk) as [Hprod Habs].
  rewrite list_lookup_fmap, !list_lookup_fmap, Htotal. simpl.
  rewrite Hprod, Habs. split; f_equal.
  - f_equal. ring.
  - unfold log10. rewrite ln_exp. unfold Rdiv. ring.
Qed.

End PageLoops.

Lemma atmosphere_layers_compose_witness :
  Forall (fun T => 0 < T) [288.15; 281.65] /\
  exists layer_spectra total_transmittance total_absorbance,
    atmosphere_spectrum gaussian_kernel [Line 6648.88 1e-20 0.05]
      [6648; 6648.88; 6650] "H2O" [0; 1] [288.15; 281.65] [1013.25; 898.7]
      [10000; 6065]
    = Some (layer_spectra, total_transmittance, total_absorbance) /\
    length layer_spectra
    = length (zip4 [0; 1] [288.15; 281.65] [1013.25; 898.7] [10000; 6065]) /\
    length total_transmittance = length [6648; 6648.88; 6650] /\
    length total_absorbance = length [6648; 6648.88; 6650] /\
    forall k : nat, (k < length [6648%R; 6648.88%R; 6650%R])%nat ->
      total_transmittance !! k
      = Some (foldr Rmult 1 (values_at transmittance k layer_spectra)) /\
      total_absorbance !! k
      = Some (foldr Rplus 0 (values_at absorbance k layer_spectra)).
Proof.
  assert (HT : Forall (fun T => 0 < T) [288.15; 281.65]).
  { repeat constructor; lra. }
  split; [exact HT |].
  apply (atmosphere_layers_compose gaussian_kernel [Line 6648.88 1e-20 0.05]
           [6648; 6648.88; 6650] "H2O" [0; 1] [288.15; 281.65] [1013.25; 898.7]
           [10000; 6065]).
  exact HT.
Defined.

Section MixturePage.

Variable wofz : complex -> complex.

Lemma mixture_loop_inv
    (download : string -> option (list line))
    (grid : list R) (temperature pressure_atm path_length_m : R)
    (molecule_concentrations : gmap string R)
    (selected : list string)
    (individual : gmap string spectrum) (combined : list R) :
  0 < temperature ->
  NoDup selected ->
  (forall m, m ∈ selected -> individual !! m = None) ->
  (forall m, m ∈ selected -> is_Some (molecule_concentrations !! m)) ->
  length combined = length grid ->
  exists individual' combined',
    mixture_loop wofz download grid temperature pressure_atm path_length_m
      molecule_concentrations selected individual combined
    = Some (individual', combined') /\
    length combined' = length grid /\
    (forall m, m ∉ selected -> individual' !! m = individual !! m) /\
    (forall m, m ∈ selected ->
       (is_Some (individual' !! m)
        <-> exists ln lines, download m = Some (ln :: lines))) /\
    Forall (beer_lambert_spectrum path_length_m (length grid))
      (computed_spectra individual' selected) /\
    forall (k : nat) (a0 : R),
      combined !! k = Some a0 ->
      combined' !! k
      = Some (a0 + foldr Rplus 0
                     (values_at absorption_coeff k
                        (computed_spectra individual' selected))).
Proof.
  intros HT. revert individual combined.
  induction selected as [| m rest IH];
    intros individual combined Hnodup Hfresh Hconc Hlen.
  - exists individual, combined. simpl.
    split; [reflexivity |]. split; [exact Hlen |]. split; [auto |].
    split; [intros m Hin; apply elem_of_nil in Hin; contradiction |].
    split; [constructor |].
    intros k a0 Hk. rewrite Hk. f_equal. ring.
  - apply NoDup_cons in Hnodup as [Hm Hnodup].
    assert (Hfresh' : forall m', m' ∈ rest -> individual !! m' = None).
    { intros m' Hin. apply Hfresh, list_elem_of_further, Hin. }
    assert (Hconc' : forall m', m' ∈ rest -> is_Some (molecule_concentrations !! m')).
    { intros m' Hin. apply Hconc, list_elem_of_further, Hin. }
    cbn [mixture_loop].
    destruct (download m) as [[| ln lines] |] eqn:Hdata.
    + (* an empty table: the molecule is skipped *)
      destruct (IH individual combined Hnodup Hfresh' Hconc' Hlen)
        as (ind' & comb' & Hloop & Hlen' & Hkeep & Hdom & Hbl & Hsum).
      assert (Hnone : ind' !! m = None).
      { rewrite (Hkeep m Hm). apply Hfresh, list_elem_of_here. }
      exists ind', comb'. split; [exact Hloop |]. split; [exact Hlen' |].
      split; [intros m' Hin; apply Hkeep; intros Hr; apply Hin,
                list_elem_of_further, Hr |].
      assert (Hcomp : computed_spectra ind' (m :: rest) = computed_spectra ind' rest).
      { unfold computed_spectra. simpl. rewrite Hnone. reflexivity. }
      rewrite Hcomp. split; [| split; assumption].
      intros m' Hin. apply elem_of_cons in Hin as [-> | Hin]; [| apply Hdom, Hin].
      rewrite Hnone, Hdata. split.
      * intros [? ?]; discriminate.
      * intros (? & ? & ?); discriminate.
    + (* data: the spectrum is computed and accumulated *)
      destruct (Hconc m (list_elem_of_here _ _)) as [ppb Hppb].
      rewrite Hppb. cbn [mbind option_bind].
      rewrite absorption_spectrum_spec by exact HT. cbn [caught mbind option_bind].
      set (s := spec_absorption_spectrum wofz (ln :: lines) grid temperature
                  pressure_atm (ppb / 1e9) path_length_m (molecular_mass_of m)).
      pose proof (spec_spectrum_beer_lambert wofz (ln :: lines) grid temperature
                    pressure_atm (ppb / 1e9) path_length_m (molecular_mass_of m)) as Hs.
      fold s in Hs.
      assert (Hslen : length (absorption_coeff s) = length grid) by apply Hs.
      destruct (IH (<[m := s]> individual) (array_add combined (absorption_coeff s)))
        as (ind' & comb' & Hloop & Hlen' & Hkeep & Hdom & Hbl & Hsum).
      { exact Hnodup. }
      { intros m' Hin. rewrite lookup_insert_ne; [apply Hfresh', Hin |].
        intros ->. contradiction. }
      { exact Hconc'. }
      { apply array_add_length; assumption. }
      assert (Hsome : ind' !! m = Some s).
      { rewrite (Hkeep m Hm). apply lookup_insert_eq. }
      exists ind', comb'. split; [exact Hloop |]. split; [exact Hlen' |].
      split.
      { intros m' Hin. rewrite Hkeep.
        - apply lookup_insert_ne. intros ->. apply Hin, list_elem_of_here.
        - intros Hr. apply Hin, list_elem_of_further, Hr. }
      assert (Hcomp : computed_spectra ind' (m :: rest)
                      = s :: computed_spectra ind' rest).
      { unfold computed_spectra. simpl. rewrite Hsome. reflexivity. }
      rewrite Hcomp. split; [| split].
      * intros m' Hin. apply elem_of_cons in Hin as [-> | Hin]; [| apply Hdom, Hin].
        rewrite Hsome, Hdata. split; [eauto | eauto].
      * constructor; assumption.
      * intros k a0 Hk.
        destruct (lookup_lt_is_Some_2 (absorption_coeff s) k) as [a Ha].
        { rewrite Hslen, <- Hlen. eapply lookup_lt_Some, Hk. }
        rewrite (Hsum k (a0 + a) (array_add_lookup _ _ _ _ _ Hk Ha)).
        rewrite values_at_cons, Ha. simpl. f_equal. ring.
    + (* no table: the molecule is skipped *)
      destruct (IH individual combined Hnodup Hfresh' Hconc' Hlen)
        as (ind' & comb' & Hloop & Hlen' & Hkeep & Hdom & Hbl & Hsum).
      assert (Hnone : ind' !! m = None).
      { rewrite (Hkeep m Hm). apply Hfresh, list_elem_of_here. }
      exists ind', comb'. split; [exact Hloop |]. split; [exact Hlen' |].
      split; [intros m' Hin; apply Hkeep; intros Hr; apply Hin,
                list_elem_of_further, Hr |].
      assert (Hcomp : computed_spectra ind' (m :: rest) = computed_spectra ind' rest).
      { unfold computed_spectra. simpl. rewrite Hnone. reflexivity. }
      rewrite Hcomp. split; [| split; assumption].
      intros m' Hin. apply elem_of_cons in Hin as [-> | Hin]; [| apply Hdom, Hin].
      rewrite Hnone, Hdata. split.
      * intros [? ?]; discriminate.
      * intros (? & ? & ?); discriminate.
Qed.

(** X16. For a temperature > 0 and a selection of distinct molecules, each
    with an entry in the concentration table, the mixture computation of
    streamlit_app.py keeps an individual spectrum exactly for the selected
    molecules whose download gave at least one line, and in exact arithmetic
    its combined transmittance is, at every grid point, the product of the
    individual transmittances and its combined absorbance the sum of the
    individual absorbances.  (Exact arithmetic: real numbers, without
    rounding and without the underflow of [np.exp]; in binary64 an optical
    depth beyond about 745 gives the transmittance 0.0 and the absorbance
    [inf].) *)
Theorem mixture_composes
    (download : string -> option (list line))
    (frequency_grid : list R) (temperature pressure_torr path_length_m : R)
    (molecule_concentrations : gmap string R)
    (selected_molecules : list string) :
  0 < temperature ->
  NoDup selected_molecules ->
  (forall m, m ∈ selected_molecules -> is_Some (molecule_concentrations !! m)) ->
  exists individual_spectra combined_transmittance combined_absorbance,
    mixture_spectrum wofz download frequency_grid temperature pressure_torr
      path_length_m molecule_concentrations selected_molecules
    = Some (individual_spectra, combined_transmittance, combined_absorbance) /\
    (forall m,
       is_Some (individual_spectra !! m)
       <-> m ∈ selected_molecules /\ exists ln lines, download m = Some (ln :: lines)) /\
    length combined_transmittance = length frequency_grid /\
    length combined_absorbance = length frequency_grid /\
    forall k : nat, (k < length frequency_grid)%nat ->
      combined_transmittance !! k
      = Some (foldr Rmult 1
                (values_at transmittance k
                   (computed_spectra individual_spectra selected_molecules))) /\
      combined_absorbance !! k
      = Some (foldr Rplus 0
                (values_at absorbance k
                   (computed_spectra individual_spectra selected_molecules))).
Proof.
  intros HT Hnodup Hconc. unfold mixture_spectrum.
  destruct (mixture_loop_inv download frequency_grid temperature
              (pressure_torr / 760.0) path_length_m molecule_concentrations
              selected_molecules ∅ (zeros_like frequency_grid) HT Hnodup)
    as (ind & comb & Hloop & Hlen & Hkeep & Hdom & Hbl & Hsum).
  { intros m _. apply lookup_empty. }
  { exact Hconc. }
  { apply length_replicate. }
  rewrite Hloop. do 3 eexists. split; [reflexivity |]. split.
  { intros m. destruct (decide (m ∈ selected_molecules)) as [Hin | Hout].
    - rewrite (Hdom m Hin). tauto.
    - rewrite (Hkeep m Hout), lookup_empty. split.
      + intros [? ?]; discriminate.
      + intros [? _]; contradiction. }
  split; [rewrite length_fmap; exact Hlen |].
  split; [rewrite !length_fmap; exact Hlen |].
  intros k Hk.
  pose proof (Hsum k 0 (lookup_replicate_2 _ _ _ Hk)) as Hcomb.
  destruct (beer_lambert_composition path_length_m (length frequency_grid) k _
              Hbl Hk) as [Hprod Habs].
  rewrite !list_lookup_fmap, Hcomb. simpl.
  rewrite Hprod, Habs. split; f_equal.
  - f_equal. ring.
  - unfold log10.
    replace (- (0 + foldr Rplus 0
                      (values_at absorption_coeff k
                         (computed_spectra ind selected_molecules)))
             * path_length_m)
      with (- ((0 + foldr Rplus 0
                      (values_at absorption_coeff k
                         (computed_spectra ind selected_molecules)))
               * path_length_m)) by ring.
    rewrite ln_exp. unfold Rdiv. ring.
Qed.

End MixturePage.

Lemma sample_download_concentrations :
  forall m, m ∈ ["H2O"; "SF6"] ->
    is_Some (({[ "H2O" := 1000; "SF6" := 400 ]} : gmap string R) !! m).
Proof.
  intros m Hin. apply elem_of_cons in Hin as [-> | Hin].
  - eexists. reflexivity.
  - apply list_elem_of_singleton in Hin as ->. eexists. reflexivity.
Qed.

Lemma sample_selection_distinct : NoDup ["H2O"; "SF6"].
Proof.
  apply NoDup_cons_2; [| apply NoDup_singleton].
  intros Hin. apply list_elem_of_singleton in Hin. discriminate.
Qed.

Lemma mixture_composes_witness :
  0 < 296.15 /\
  NoDup ["H2O"; "SF6"] /\
  (forall m, m ∈ ["H2O"; "SF6"] ->
     is_Some (({[ "H2O" := 1000; "SF6" := 400 ]} : gmap string R) !! m)) /\
  exists individual_spectra combined_transmittance combined_absorbance,
    mixture_spectrum gaussian_kernel
      (fun m => if bool_decide (m = "H2O")
                then Some [Line 6648.88 1e-20 0.05] else None)
      [6648; 6648.88; 6650] 296.15 760 1000
      {[ "H2O" := 1000; "SF6" := 400 ]} ["H2O"; "SF6"]
    = Some (individual_spectra, combined_transmittance, combined_absorbance) /\
    (forall m,
       is_Some (individual_spectra !! m)
       <-> m ∈ ["H2O"; "SF6"] /\
           exists ln lines,
             (if bool_decide (m = "H2O")
              then Some [Line 6648.88 1e-20 0.05] else None) = Some (ln :: lines)) /\
    length combined_transmittance = length [6648; 6648.88; 6650] /\
    length combined_absorbance = length [6648; 6648.88; 6650] /\
    forall k : nat, (k < length [6648%R; 6648.88%R; 6650%R])%nat ->
      combined_transmittance !! k
      = Some (foldr Rmult 1
                (values_at transmittance k
                   (computed_spectra individual_spectra ["H2O"; "SF6"]))) /\
      combined_absorbance !! k
      = Some (foldr Rplus 0
                (values_at absorbance k
                   (computed_spectra individual_spectra ["H2O"; "SF6"]))).
Proof.
  split; [lra |]. split; [apply sample_selection_distinct |].
  split; [apply sample_download_concentrations |].
  apply (mixture_composes gaussian_kernel
           (fun m => if bool_decide (m = "H2O")
                     then Some [Line 6648.88 1e-20 0.05] else None)
           [6648; 6648.88; 6650] 296.15 760 1000
           {[ "H2O" := 1000; "SF6" := 400 ]} ["H2O"; "SF6"]).
  - lra.
  - apply sample_selection_distinct.
  - apply sample_download_concentrations.
Defined.

(** X17. Within the troposphere of the US Standard Atmosphere model, from
    sea level to 11 km, the pressure does not increase with the altitude. *)
Theorem troposphere_pressure_decreases (a b : R) :
  0 <= a -> a <= b -> b <= 11 ->
  (us_standard_atmosphere b).1.2 <= (us_standard_atmosphere a).1.2.
Proof.
  intros Ha Hab Hb. unfold us_standard_atmosphere. simpl.
  rewrite !decide_True by lra. simpl.
  apply Rmult_le_compat_l; [lra |].
  unfold float_power. apply Rle_Rpower_l; [lra |].
  split.
  - apply Rdiv_lt_0_compat; lra.
  - apply Rmult_le_compat_r; [lra |]. lra.
Qed.

Lemma troposphere_pressure_decreases_witness :
  0 <= 2 /\ 2 <= 8 /\ 8 <= 11 /\
  (us_standard_atmosphere 8).1.2 <= (us_standard_atmosphere 2).1.2.
Proof.
  split; [lra |]. split; [lra |]. split; [lra |].
  apply (troposphere_pressure_decreases 2 8); lra.
Defined.

(** ** More on the calculator *)

Lemma array_add_swap (acc p q : list R) :
  zip_with Rplus (zip_with Rplus acc p) q = zip_with Rplus (zip_with Rplus acc q) p.
Proof.
  apply list_eq. intros k. rewrite !lookup_zip_with.
  destruct (acc !! k) as [x |], (p !! k) as [y |], (q !! k) as [z |];
    simpl; try reflexivity.
  f_equal. ring.
Qed.

Section LineOrder.

Variable wofz : complex -> complex.

Lemma spec_loop_permutation
    (grid : list R) (temperature pressure concentration mass : R)
    (lines lines' : list line) (acc : list R) :
  lines ≡ₚ lines' ->
  foldl (spec_accumulate wofz grid temperature pressure concentration mass) acc lines
  = foldl (spec_accumulate wofz grid temperature pressure concentration mass) acc lines'.
Proof.
  intros Hperm. revert acc.
  induction Hperm as [| ln l l' _ IH | x y l | l l' l'' _ IH1 _ IH2]; intros acc.
  - reflexivity.
  - simpl. apply IH.
  - simpl. f_equal. unfold spec_accumulate. apply array_add_swap.
  - rewrite IH1. apply IH2.
Qed.

(** X18. The spectrum does not depend on the order of the lines: for a
    temperature > 0, [calculate_absorption_spectrum] returns the same four
    arrays for any two permutations of one line list (in exact arithmetic). *)
Theorem spectrum_line_order
    (lines lines' : list line) (frequency_grid : list R)
    (temperature pressure concentration path_length : R) (molecule : string) :
  0 < temperature ->
  lines ≡ₚ lines' ->
  exists r,
    calculate_absorption_spectrum wofz lines frequency_grid temperature pressure
      concentration path_length molecule = Returned r /\
    calculate_absorption_spectrum wofz lines' frequency_grid temperature pressure
      concentration path_length molecule = Returned r.
Proof.
  intros HT Hperm. eexists. split; [apply absorption_spectrum_spec, HT |].
  rewrite absorption_spectrum_spec by exact HT. f_equal.
  unfold spec_absorption_spectrum.
  rewrite (spec_loop_permutation _ _ _ _ _ lines' lines) by (symmetry; exact Hperm).
  reflexivity.
Qed.

(** X19. In exact arithmetic the two Beer-Lambert arrays of a returned
    spectrum agree: for a temperature > 0, at every grid point the absorbance
    equals the absorption coefficient times the path length divided by
    ln 10, and the transmittance equals 10 to the power of minus the
    absorbance.  (Exact arithmetic: real numbers, without rounding and
    without the underflow of [np.exp]; in binary64 an optical depth beyond
    about 745 gives the transmittance 0.0 and the absorbance [inf].) *)
Theorem absorbance_round_trip
    (lines : list line) (frequency_grid : list R)
    (temperature pressure concentration path_length : R) (molecule : string) :
  0 < temperature ->
  exists r,
    calculate_absorption_spectrum wofz lines frequency_grid temperature pressure
      concentration path_length molecule = Returned r /\
    forall k : nat, (k < length frequency_grid)%nat ->
      exists a t b,
        absorption_coeff r !! k = Some a /\
        transmittance r !! k = Some t /\
        absorbance r !! k = Some b /\
        b = a * path_length / ln 10 /\
        t = Rpower 10 (- b).
Proof.
  intros HT. eexists. split; [apply absorption_spectrum_spec, HT |].
  intros k Hk.
  destruct (beer_lambert_at path_length (length frequency_grid) k _
              (spec_spectrum_beer_lambert wofz lines frequency_grid temperature
                 pressure concentration path_length (molecular_mass_of molecule)) Hk)
    as (a & Ha & Ht & Hb).
  exists a, (exp (- (a * path_length))), (a * path_length / ln 10).
  split; [exact Ha |]. split; [exact Ht |]. split; [exact Hb |].
  split; [reflexivity |].
  unfold Rpower. f_equal. field. pose proof ln_10_pos. lra.
Qed.

End LineOrder.

Lemma spectrum_line_order_witness :
  0 < 296.15 /\
  [Line 6648.88 1e-20 0.05; Line 6649.5 2e-21 0.07]
  ≡ₚ [Line 6649.5 2e-21 0.07; Line 6648.88 1e-20 0.05] /\
  exists r,
    calculate_absorption_spectrum gaussian_kernel
      [Line 6648.88 1e-20 0.05; Line 6649.5 2e-21 0.07]
      [6648; 6648.88; 6650] 296.15 1 1e-3 1000 "H2O" = Returned r /\
    calculate_absorption_spectrum gaussian_kernel
      [Line 6649.5 2e-21 0.07; Line 6648.88 1e-20 0.05]
      [6648; 6648.88; 6650] 296.15 1 1e-3 1000 "H2O" = Returned r.
Proof.
  split; [lra |]. split; [apply Permutation_swap |].
  apply (spectrum_line_order gaussian_kernel
           [Line 6648.88 1e-20 0.05; Line 6649.5 2e-21 0.07]
           [Line 6649.5 2e-21 0.07; Line 6648.88 1e-20 0.05]
           [6648; 6648.88; 6650] 296.15 1 1e-3 1000 "H2O").
  - lra.
  - apply Permutation_swap.
Defined.

Lemma absorbance_round_trip_witness :
  0 < 296.15 /\
  exists r,
    calculate_absorption_spectrum gaussian_kernel [Line 6648.88 1e-20 0.05]
      [6648; 6648.88; 6650] 296.15 1 1e-3 1000 "H2O" = Returned r /\
    forall k : nat, (k < length [6648%R; 6648.88%R; 6650%R])%nat ->
      exists a t b,
        absorption_coeff r !! k = Some a /\
        transmittance r !! k = Some t /\
        absorbance r !! k = Some b /\
        b = a * 1000 / ln 10 /\
        t = Rpower 10 (- b).
Proof.
  split; [lra |].
  apply (absorbance_round_trip gaussian_kernel [Line 6648.88 1e-20 0.05]
           [6648; 6648.88; 6650] 296.15 1 1e-3 1000 "H2O").
  lra.
Defined.
